(** * StateModel: an event-driven state machine engine

    A shallow embedding of [StateModel.py].  The engine object is a record,
    every method is a computation in a small state-and-exception monad, and
    whatever the engine does to the outside world (handler callbacks, calls
    on button and timer adapters, log lines) is appended to a trace, each
    entry stamped with the value [_curState] had when it was performed.

    Python lists are mutable objects: the rows of the transition table live
    in a heap of list objects and the table holds references to them, so a
    row object stored in two places is one object here as well.

    The handler is the caller's object.  Its callbacks are taken to return
    normally and not to call back into the engine while they run; under that
    reading a callback is fully described by its trace entry.  The loop of
    [run] is not part of this development. *)

From Stdlib Require Import ZArith Lia.
From stdpp Require Import base list strings.

Local Open Scope Z_scope.

(** ** Data *)

(** The exceptions that can escape from the engine.  [ValueError] is the one
    the engine raises itself (a configuration error); the others come from
    the Python operations it uses. *)
Inductive exn :=
| ValueError (msg : string)
| TypeError
| IndexError
| AttributeError.

(** A reference to a list object, and the contents of a row object: pairs
    [(event, destination)] in insertion order. *)
Definition loc := nat.
Definition row := list (string * Z).

(** The lines given to [Log.d] and [Log.e], by shape.  The [Log] module is
    not among the sources; the engine only calls it. *)
Inductive logline :=
| GoingFromState (cur new : Z) (event : string)
| ProcessingEvent (event : string)
| IgnoringEvent (event : string)
| ResettingNumberOfStates (n : Z).

(** What the engine does to its collaborators. *)
Inductive effect :=
| stateEntered (state : Z) (event : string)
| stateLeft (state : Z) (event : string)
| stateEvent (state : Z) (event : string)
| button_setHandler (name : string) (attached : bool)
| timer_setHandler (name : string) (attached : bool)
| timer_cancel (name : string)
| Log_d (l : logline)
| Log_e (l : logline).

Definition is_handler_call (e : effect) : bool :=
  match e with
  | stateEntered _ _ | stateLeft _ _ | stateEvent _ _ => true
  | _ => false
  end.

(** The handler object.  Its callbacks are recorded in the trace; the only
    thing the engine reads back from it is whether the value returned by
    [stateEvent] is true. *)
Record Handler := { stateEvent_result : Z -> string -> bool }.

(** Modelled from the spec: the button and timer classes are not among the
    sources.  An adapter owns a name; the engine reads it, sets or clears
    the adapter's delivery target with [setHandler], and a timer can in
    addition be cancelled.  The engine's calls on an adapter are recorded in
    the trace under the adapter's name. *)
Record Button := { button_name : string }.
Record Timer := { timer_name : string }.

Record StateModel := {
  _numstates : Z;
  _running : bool;
  _transitions : list (option loc);
  _curState : Z;
  _handler : Handler;
  _debug : bool;
  _events : list string;
  _buttons : list Button;
  _timers : list Timer;
  heap : list row;
  trace : list (effect * Z)
}.

Definition set_numstates (v : Z) (m : StateModel) : StateModel :=
  {| _numstates := v; _running := _running m; _transitions := _transitions m;
     _curState := _curState m; _handler := _handler m; _debug := _debug m;
     _events := _events m; _buttons := _buttons m; _timers := _timers m;
     heap := heap m; trace := trace m |}.

Definition set_running (v : bool) (m : StateModel) : StateModel :=
  {| _numstates := _numstates m; _running := v; _transitions := _transitions m;
     _curState := _curState m; _handler := _handler m; _debug := _debug m;
     _events := _events m; _buttons := _buttons m; _timers := _timers m;
     heap := heap m; trace := trace m |}.

Definition set_transitions (v : list (option loc)) (m : StateModel) : StateModel :=
  {| _numstates := _numstates m; _running := _running m; _transitions := v;
     _curState := _curState m; _handler := _handler m; _debug := _debug m;
     _events := _events m; _buttons := _buttons m; _timers := _timers m;
     heap := heap m; trace := trace m |}.

Definition set_curState (v : Z) (m : StateModel) : StateModel :=
  {| _numstates := _numstates m; _running := _running m; _transitions := _transitions m;
     _curState := v; _handler := _handler m; _debug := _debug m;
     _events := _events m; _buttons := _buttons m; _timers := _timers m;
     heap := heap m; trace := trace m |}.

Definition set_events (v : list string) (m : StateModel) : StateModel :=
  {| _numstates := _numstates m; _running := _running m; _transitions := _transitions m;
     _curState := _curState m; _handler := _handler m; _debug := _debug m;
     _events := v; _buttons := _buttons m; _timers := _timers m;
     heap := heap m; trace := trace m |}.

Definition set_buttons (v : list Button) (m : StateModel) : StateModel :=
  {| _numstates := _numstates m; _running := _running m; _transitions := _transitions m;
     _curState := _curState m; _handler := _handler m; _debug := _debug m;
     _events := _events m; _buttons := v; _timers := _timers m;
     heap := heap m; trace := trace m |}.

Definition set_timers (v : list Timer) (m : StateModel) : StateModel :=
  {| _numstates := _numstates m; _running := _running m; _transitions := _transitions m;
     _curState := _curState m; _handler := _handler m; _debug := _debug m;
     _events := _events m; _buttons := _buttons m; _timers := v;
     heap := heap m; trace := trace m |}.

Definition set_heap (v : list row) (m : StateModel) : StateModel :=
  {| _numstates := _numstates m; _running := _running m; _transitions := _transitions m;
     _curState := _curState m; _handler := _handler m; _debug := _debug m;
     _events := _events m; _buttons := _buttons m; _timers := _timers m;
     heap := v; trace := trace m |}.

Definition set_trace (v : list (effect * Z)) (m : StateModel) : StateModel :=
  {| _numstates := _numstates m; _running := _running m; _transitions := _transitions m;
     _curState := _curState m; _handler := _handler m; _debug := _debug m;
     _events := _events m; _buttons := _buttons m; _timers := _timers m;
     heap := heap m; trace := v |}.

(** ** The monad: a method either returns or raises, and in both cases
    leaves the object in the state it had reached. *)

Inductive outcome (A : Type) : Type :=
| Return (a : A) (m : StateModel)
| Raise (e : exn) (m : StateModel).
Arguments Return {A} a m.
Arguments Raise {A} e m.

Definition final {A} (o : outcome A) : StateModel :=
  match o with Return _ m => m | Raise _ m => m end.

Definition M (A : Type) : Type := StateModel -> outcome A.

Definition ret {A} (a : A) : M A := fun m => Return a m.
Definition raise {A} (e : exn) : M A := fun m => Raise e m.
Definition bind {A B} (c : M A) (k : A -> M B) : M B :=
  fun m => match c m with
           | Return a m' => k a m'
           | Raise e m' => Raise e m'
           end.
Definition self : M StateModel := fun m => Return m m.
Definition assign (f : StateModel -> StateModel) : M unit := fun m => Return tt (f m).

Declare Scope py_scope.
Delimit Scope py_scope with py.
Notation "x <- c ;; k" := (bind c (fun x => k))
  (at level 100, c at next level, right associativity) : py_scope.
Notation "c ;; k" := (bind c (fun _ => k))
  (at level 100, right associativity) : py_scope.
Local Open Scope py_scope.

Definition when (b : bool) (c : M unit) : M unit := if b then c else ret tt.

(** An effect, stamped with the current state of the engine. *)
Definition emit (e : effect) : M unit :=
  fun m => Return tt (set_trace (trace m ++ [(e, _curState m)]) m).

(** ** Python lists *)

(** [l[i]]: a negative index counts from the end, anything outside
    [-len, len) is an [IndexError] ([None] here). *)
Definition py_index {A} (l : list A) (i : Z) : option nat :=
  let n := Z.of_nat (length l) in
  if bool_decide (0 <= i < n) then Some (Z.to_nat i)
  else if bool_decide (- n <= i < 0) then Some (Z.to_nat (n + i))
  else None.

(** [self._transitions[i]] *)
Definition transitions_getitem (i : Z) : M (option loc) :=
  m <- self ;;
  match py_index (_transitions m) i with
  | Some k =>
      match _transitions m !! k with
      | Some r => ret r
      | None => raise IndexError
      end
  | None => raise IndexError
  end.

(** [self._transitions[i] = v] *)
Definition transitions_setitem (i : Z) (v : option loc) : M unit :=
  m <- self ;;
  match py_index (_transitions m) i with
  | Some k => assign (set_transitions (<[k:=v]> (_transitions m)))
  | None => raise IndexError
  end.

(** The contents of a list object.  Every reference the engine holds was
    allocated before it was stored, so the default is never used. *)
Definition cells (h : list row) (l : loc) : row := default [] (h !! l).

Definition deref (l : loc) : M row := m <- self ;; ret (cells (heap m) l).

(** A new list object with the given contents. *)
Definition new_list (r : row) : M loc :=
  m <- self ;;
  assign (set_heap (heap m ++ [r])) ;;
  ret (length (heap m)).

(** [l.append(x)] *)
Definition list_append (l : loc) (x : string * Z) : M unit :=
  m <- self ;;
  assign (set_heap (<[l := cells (heap m) l ++ [x]]> (heap m))).

(** [not r] for [r] being [None] or a list. *)
Definition py_not (r : option loc) : M bool :=
  match r with
  | None => ret true
  | Some l => c <- deref l ;; ret (match c with [] => true | _ => false end)
  end.

(** ** The engine *)

Definition __init__ (numstates : Z) (handler : Handler) (debug : bool) : StateModel :=
  {| _numstates := numstates;
     _running := false;
     _transitions := replicate (Z.to_nat numstates) None;
     _curState := -1;
     _handler := handler;
     _debug := debug;
     _events := ["no_event"%string];
     _buttons := [];
     _timers := [];
     heap := [];
     trace := [] |}.

(** One round of the loop of [addTransition]. *)
Definition addTransition_body (fromState : Z) (event : string) (toState : Z) : M unit :=
  m <- self ;;
  if bool_decide (event ∈ _events m) then
    r <- transitions_getitem fromState ;;
    empty <- py_not r ;;
    when empty (l <- new_list [] ;; transitions_setitem fromState (Some l)) ;;
    r <- transitions_getitem fromState ;;
    match r with
    | Some l => list_append l (event, toState)
    | None => raise AttributeError
    end
  else raise (ValueError ("Invalid event " +:+ event)).

Fixpoint addTransition (fromState : Z) (events : list string) (toState : Z) : M unit :=
  match events with
  | [] => ret tt
  | event :: events' =>
      addTransition_body fromState event toState ;;
      addTransition fromState events' toState
  end.

(** The validation loops of [setTransitionTable]. *)
Fixpoint check_row (r : row) : M unit :=
  match r with
  | [] => ret tt
  | (e, s) :: r' =>
      m <- self ;;
      if bool_decide (e ∈ _events m) then check_row r'
      else raise (ValueError ("Invalid event " +:+ e))
  end.

Fixpoint check_rows (transitions : list loc) : M unit :=
  match transitions with
  | [] => ret tt
  | l :: rest => r <- deref l ;; check_row r ;; check_rows rest
  end.

(** The argument is the caller's matrix: a list of row objects. *)
Definition setTransitionTable (transitions : list loc) : M unit :=
  m <- self ;;
  let len := Z.of_nat (length transitions) in
  when (bool_decide (len ≠ _numstates m))
       (assign (set_numstates len) ;; emit (Log_e (ResettingNumberOfStates len))) ;;
  check_rows transitions ;;
  assign (set_transitions (Some <$> transitions)).

(** The loop of [getTransition] over one row. *)
Fixpoint getTransition_loop (r : row) (event : string) : Z :=
  match r with
  | [] => -1
  | (e, s) :: r' => if bool_decide (e = event) then s else getTransition_loop r' event
  end.

Definition getTransition (fromState : Z) (event : string) : M Z :=
  r <- transitions_getitem fromState ;;
  match r with
  | None => raise TypeError
  | Some l => c <- deref l ;; ret (getTransition_loop c event)
  end.

Definition start : M unit :=
  assign (set_curState 0) ;;
  assign (set_running true) ;;
  m <- self ;;
  emit (stateEntered (_curState m) "no_event").

Fixpoint detach_buttons (bs : list Button) : M unit :=
  match bs with
  | [] => ret tt
  | b :: bs' => emit (button_setHandler (button_name b) false) ;; detach_buttons bs'
  end.

Fixpoint detach_timers (ts : list Timer) : M unit :=
  match ts with
  | [] => ret tt
  | t :: ts' =>
      emit (timer_setHandler (timer_name t) false) ;;
      emit (timer_cancel (timer_name t)) ;;
      detach_timers ts'
  end.

Definition stop : M unit :=
  m <- self ;;
  when (_running m) (emit (stateLeft (_curState m) "no_event")) ;;
  assign (set_running false) ;;
  detach_buttons (_buttons m) ;;
  detach_timers (_timers m) ;;
  assign (set_curState (-1)).

Definition gotoState (newState : Z) (event : string) : M unit :=
  m <- self ;;
  when (bool_decide (newState < _numstates m))
       (when (_debug m) (emit (Log_d (GoingFromState (_curState m) newState event))) ;;
        emit (stateLeft (_curState m) event) ;;
        assign (set_curState newState) ;;
        emit (stateEntered newState event)).

Definition processEvent (event : string) : M unit :=
  m <- self ;;
  if bool_decide (event ∈ _events m) then
    newstate <- getTransition (_curState m) event ;;
    if bool_decide (0 <= newstate) then
      when (_debug m) (emit (Log_d (ProcessingEvent event))) ;;
      gotoState newstate event
    else
      when (_debug m)
           (when (bool_decide (event ≠ "no_event"%string))
                 (emit (stateEvent (_curState m) event) ;;
                  when (negb (stateEvent_result (_handler m) (_curState m) event))
                       (emit (Log_d (IgnoringEvent event)))))
  else raise (ValueError ("Invalid event " +:+ event)).

Definition append_event (e : string) : M unit :=
  m <- self ;; assign (set_events (_events m ++ [e])).

Definition addButton (btn : Button) : M unit :=
  let btnname := button_name btn in
  let event1 := btnname +:+ "_press" in
  let event2 := btnname +:+ "_release" in
  m <- self ;;
  if bool_decide (event1 ∈ _events m) || bool_decide (event2 ∈ _events m) then
    raise (ValueError ("There is already a button with the name " +:+ btnname))
  else
    append_event event1 ;;
    append_event event2 ;;
    emit (button_setHandler btnname true) ;;
    m <- self ;;
    assign (set_buttons (_buttons m ++ [btn])).

Definition buttonPressed (name : string) : M unit := processEvent (name +:+ "_press").
Definition buttonReleased (name : string) : M unit := processEvent (name +:+ "_release").

Definition addTimer (timer : Timer) : M unit :=
  let eventname := timer_name timer +:+ "_timeout" in
  m <- self ;;
  if bool_decide (eventname ∈ _events m) then
    raise (ValueError ("A timer with name " +:+ timer_name timer +:+ " already exists"))
  else
    append_event eventname ;;
    emit (timer_setHandler (timer_name timer) true) ;;
    m <- self ;;
    assign (set_timers (_timers m ++ [timer])).

Definition addCustomEvent (event : string) : M unit :=
  m <- self ;;
  if bool_decide (event ∈ _events m) then
    raise (ValueError ("An event with the name " +:+ event +:+ " already exists"))
  else append_event event.

Definition timeout (name : string) : M unit := processEvent (name +:+ "_timeout").

(** ** Callers *)

(** What client code can do with an engine: build a row object, or call one
    of the methods above. *)
Inductive call :=
| new_row (r : row)
| call_addTransition (fromState : Z) (events : list string) (toState : Z)
| call_setTransitionTable (transitions : list loc)
| call_getTransition (fromState : Z) (event : string)
| call_start
| call_stop
| call_gotoState (newState : Z) (event : string)
| call_processEvent (event : string)
| call_addButton (btn : Button)
| call_buttonPressed (name : string)
| call_buttonReleased (name : string)
| call_addTimer (timer : Timer)
| call_addCustomEvent (event : string)
| call_timeout (name : string).

Definition perform (c : call) : M unit :=
  match c with
  | new_row r => _ <- new_list r ;; ret tt
  | call_addTransition fromState events toState => addTransition fromState events toState
  | call_setTransitionTable transitions => setTransitionTable transitions
  | call_getTransition fromState event => _ <- getTransition fromState event ;; ret tt
  | call_start => start
  | call_stop => stop
  | call_gotoState newState event => gotoState newState event
  | call_processEvent event => processEvent event
  | call_addButton btn => addButton btn
  | call_buttonPressed name => buttonPressed name
  | call_buttonReleased name => buttonReleased name
  | call_addTimer timer => addTimer timer
  | call_addCustomEvent event => addCustomEvent event
  | call_timeout name => timeout name
  end.

(** The engines a program can get: a freshly constructed one, and whatever
    a call leaves behind, whether it returned or raised. *)
Inductive reachable : StateModel -> Prop :=
| reachable_init numstates handler debug : reachable (__init__ numstates handler debug)
| reachable_call c m : reachable m -> reachable (final (perform c m)).

(** ** Vocabulary of the statements *)

(** The handler callbacks of a trace, in order. *)
Definition handler_calls (tr : list (effect * Z)) : list (effect * Z) :=
  List.filter (fun x => is_handler_call (fst x)) tr.

(** A configuration error is a [ValueError]. *)
Definition configuration_error {A} (o : outcome A) : bool :=
  match o with
  | Raise (ValueError _) _ => true
  | _ => false
  end.

(** The call came back without an exception. *)
Definition returns {A} (o : outcome A) : bool :=
  match o with Return _ _ => true | Raise _ _ => false end.

(** The row of state [s], read the way [getTransition] reads it. *)
Definition row_of (m : StateModel) (s : Z) : option row :=
  k ← py_index (_transitions m) s;
  r ← _transitions m !! k;
  l ← r;
  Some (cells (heap m) l).

(** What [stop] does to the adapters, as trace entries stamped [cur]. *)
Definition detached (bs : list Button) (ts : list Timer) (cur : Z) : list (effect * Z) :=
  ((fun b => (button_setHandler (button_name b) false, cur)) <$> bs) ++
  (ts ≫= fun t => [(timer_setHandler (timer_name t) false, cur);
                    (timer_cancel (timer_name t), cur)]).

(** The engine of the fan controller: four states, four custom events and
    the six transitions between neighbouring states. *)
Definition quiet : Handler := {| stateEvent_result := fun _ _ => false |}.

Definition fan_setup : M unit :=
  addCustomEvent "fan1_on" ;;
  addCustomEvent "both_fans_on" ;;
  addCustomEvent "critical_temp" ;;
  addCustomEvent "temp_drop" ;;
  addTransition 0 ["fan1_on"%string] 1 ;;
  addTransition 1 ["both_fans_on"%string] 2 ;;
  addTransition 2 ["critical_temp"%string] 3 ;;
  addTransition 3 ["temp_drop"%string] 2 ;;
  addTransition 2 ["temp_drop"%string] 1 ;;
  addTransition 1 ["temp_drop"%string] 0.

Definition fan_model (debug : bool) : StateModel :=
  final (fan_setup (__init__ 4 quiet debug)).

Definition fan_running (debug : bool) : StateModel :=
  final (start (fan_model debug)).

(** The engine after a transition to [newState] on [event]: the optional
    debug line, the exit callback, the new current state, the entry
    callback. *)
Definition moved (newState : Z) (event : string) (m : StateModel) : StateModel :=
  set_trace
    (trace m
       ++ (if _debug m
           then [(Log_d (GoingFromState (_curState m) newState event), _curState m)]
           else [])
       ++ [(stateLeft (_curState m) event, _curState m);
           (stateEntered newState event, newState)])
    (set_curState newState m).

(** A row all of whose event names are in the registry, and a matrix all of
    whose rows are. *)
Definition known (m : StateModel) (r : row) : Prop :=
  Forall (fun p => p.1 ∈ _events m) r.

Definition all_known (m : StateModel) (transitions : list loc) : Prop :=
  Forall (fun l => known m (cells (heap m) l)) transitions.

(** What [setTransitionTable] does about a matrix of [n] rows before it
    looks at the rows. *)
Definition resized (n : Z) (m : StateModel) : StateModel :=
  if bool_decide (n ≠ _numstates m)
  then set_trace (trace m ++ [(Log_e (ResettingNumberOfStates n), _curState m)])
                 (set_numstates n m)
  else m.

(** The entries of the row of state [s]; a row that is [None] has none. *)
Definition row_cells (m : StateModel) (s : Z) : row := default [] (row_of m s).

(** A computation that leaves the registry alone, whatever else it does
    and however it ends. *)
Definition keeps_events {A} (c : M A) : Prop :=
  forall m, _events (final (c m)) = _events m.

(** The calls that add names to the registry. *)
Definition registers (c : call) : bool :=
  match c with
  | call_addButton _ | call_addTimer _ | call_addCustomEvent _ => true
  | _ => false
  end.

(** The engine after [stop]. *)
Definition stopped (m : StateModel) : StateModel :=
  set_curState (-1)
    (set_running false
       (set_trace
          (trace m
             ++ (if _running m then [(stateLeft (_curState m) "no_event", _curState m)]
                 else [])
             ++ detached (_buttons m) (_timers m) (_curState m))
          m)).

(** ** Vocabulary of the further properties *)

(** Everything in the engine but the current state and the trace. *)
Definition setup (m : StateModel) :=
  (_numstates m, _running m, _transitions m, _handler m, _debug m,
   _events m, _buttons m, _timers m, heap m).

(** A computation that leaves [f] of the engine as it was. *)
Definition frames {A B} (f : StateModel -> B) (c : M A) : Prop :=
  forall m, f (final (c m)) = f m.

(** The possible endings of [processEvent]. *)
Inductive dispatched (event : string) (m : StateModel) : outcome unit -> Prop :=
| dispatch_unregistered :
    event ∉ _events m ->
    dispatched event m (Raise (ValueError ("Invalid event " +:+ event)) m)
| dispatch_lookup_failed x :
    event ∈ _events m ->
    getTransition (_curState m) event m = Raise x m ->
    dispatched event m (Raise x m)
| dispatch_taken newstate :
    event ∈ _events m ->
    getTransition (_curState m) event m = Return newstate m ->
    0 <= newstate < _numstates m ->
    dispatched event m
      (Return tt (moved newstate event
                    (if _debug m
                     then set_trace (trace m ++ [(Log_d (ProcessingEvent event), _curState m)]) m
                     else m)))
| dispatch_stays m' :
    event ∈ _events m ->
    _curState m' = _curState m ->
    setup m' = setup m ->
    handler_calls (trace m') = handler_calls (trace m)
    \/ handler_calls (trace m')
       = handler_calls (trace m) ++ [(stateEvent (_curState m) event, _curState m)] ->
    dispatched event m (Return tt m').

(** The row of [other], at index [j], is the list object [lj] holding [c],
    and it is not the row object of [fromState], at index [k]. *)
Definition rows_apart (fromState other : Z) (k j : nat) (lj : loc) (c : row)
    (m : StateModel) : Prop :=
  py_index (_transitions m) fromState = Some k /\
  py_index (_transitions m) other = Some j /\
  _transitions m !! j = Some (Some lj) /\
  heap m !! lj = Some c /\
  _transitions m !! k ≠ Some (Some lj).

(** What the registry and the adapter lists hold. *)
Definition adapters (m : StateModel) := (_events m, _buttons m, _timers m).

(** The events of every attached adapter are in the registry. *)
Definition adapters_registered (m : StateModel) : Prop :=
  (forall b, b ∈ _buttons m ->
             button_name b +:+ "_press" ∈ _events m /\
             button_name b +:+ "_release" ∈ _events m) /\
  (forall t, t ∈ _timers m -> timer_name t +:+ "_timeout" ∈ _events m).

(** ** The fan controller

    [TemperatureFanControl] is the handler of a four-state engine.  Its
    devices (two fans, a buzzer, a light strip, a display), its sensor and
    the logger are driven through calls; the calls are kept, in order, as
    the controller's command list.  The handler callbacks run inside the
    engine's methods and do not touch the engine, so their commands are read
    off the handler calls the engine has recorded.  The engine's own log
    lines stay in its trace. *)

(** What is put on the display: [f"Temp: {temperature}C"] or a fixed text. *)
Inductive text :=
| Temp (temperature : Z)
| Label (s : string).

(** The lines the controller and its sensor class give to the logger. *)
Inductive note :=
| TemperatureHumidity (temp hum : Z)
| ErrorReadingSensor
| CurrentTemperature (temperature : Z)
| StateProcessingEvent (state : Z) (event : string)
| EnteredState (state : Z) (event : string)
| LeftState (state : Z) (event : string).

Inductive command :=
| fan1_run (speed : Z)
| fan1_stop
| fan2_run (speed : Z)
| fan2_stop
| buzzer_play (tone : Z)
| buzzer_stop
| led_strip_setColor (r g b : Z)
| lcd_clear
| lcd_showText (t : text) (row col : Z)
| Log_i_note (n : note)
| Log_d_note (n : note)
| Log_e_note (n : note).

Record Controller := {
  _model : StateModel;
  commands : list command
}.

(** A controller method returns, raises, or is cut off when its loops have
    used up their fuel; each time with the controller as it is then. *)
Inductive result (A : Type) : Type :=
| Done (a : A) (c : Controller)
| Failed (e : exn) (c : Controller)
| Unfinished (c : Controller).
Arguments Done {A} a c.
Arguments Failed {A} e c.
Arguments Unfinished {A} c.

Definition App (A : Type) : Type := Controller -> result A.

Definition app_ret {A} (a : A) : App A := fun c => Done a c.
Definition app_bind {A B} (x : App A) (k : A -> App B) : App B :=
  fun c => match x c with
           | Done a c' => k a c'
           | Failed e c' => Failed e c'
           | Unfinished c' => Unfinished c'
           end.

Definition ended {A} (r : result A) : Controller :=
  match r with Done _ c => c | Failed _ c => c | Unfinished c => c end.

Declare Scope app_scope.
Delimit Scope app_scope with app.
Notation "x <- c ;; k" := (app_bind c (fun x => k))
  (at level 100, c at next level, right associativity) : app_scope.
Notation "c ;; k" := (app_bind c (fun _ => k))
  (at level 100, right associativity) : app_scope.

Definition tell (cs : list command) : App unit :=
  fun c => Done tt {| _model := _model c; commands := commands c ++ cs |}.

Definition FAN1_THRESHOLD : Z := 30.
Definition FAN2_THRESHOLD : Z := 40.
Definition CRITICAL_THRESHOLD : Z := 50.

Definition stateEvent_commands (state : Z) (event : string) : list command :=
  [Log_d_note (StateProcessingEvent state event)].

Definition stateEntered_commands (state : Z) (event : string) : list command :=
  Log_d_note (EnteredState state event) ::
  if bool_decide (state = 0) then
    [fan1_stop; fan2_stop; buzzer_stop; led_strip_setColor 0 0 255;
     lcd_showText (Label "State: Idle") 1 0]
  else if bool_decide (state = 1) then
    [fan1_run 50; led_strip_setColor 0 255 0;
     lcd_showText (Label "State: Fan 1 On") 1 0]
  else if bool_decide (state = 2) then
    [fan1_run 75; fan2_run 75; led_strip_setColor 255 255 0;
     lcd_showText (Label "State: Both Fans On") 1 0]
  else if bool_decide (state = 3) then
    [fan1_run 75; fan2_run 75; buzzer_stop; led_strip_setColor 255 0 0;
     lcd_showText (Label "State: Warning! High Temp") 1 0]
  else [].

Definition stateLeft_commands (state : Z) (event : string) : list command :=
  Log_d_note (LeftState state event) ::
  (if bool_decide (state = 3) then [buzzer_stop] else []) ++
  (if bool_decide (state = 2) && bool_decide (event ≠ "critical_temp"%string)
   then [fan2_stop] else []) ++
  (if bool_decide (state = 1) then [fan1_stop] else []).

(** The commands of the handler calls in a stretch of the engine's trace. *)
Definition callbacks (tr : list (effect * Z)) : list command :=
  tr ≫= fun x =>
    match x.1 with
    | stateEntered state event => stateEntered_commands state event
    | stateLeft state event => stateLeft_commands state event
    | stateEvent state event => stateEvent_commands state event
    | _ => []
    end.

(** A call of an engine method from the controller. *)
Definition engine {A} (c : M A) : App A :=
  fun ctl =>
    let o := c (_model ctl) in
    let ctl' :=
      {| _model := final o;
         commands := commands ctl
                     ++ callbacks (drop (length (trace (_model ctl))) (trace (final o))) |} in
    match o with
    | Return a _ => Done a ctl'
    | Raise e _ => Failed e ctl'
    end.

(** The constructor: a four-state engine with the debug flag set, the four
    custom events and the six transitions. *)
Definition TemperatureFanControl : result unit :=
  engine fan_setup {| _model := __init__ 4 quiet true; commands := [] |}.

(** A sensor reading: temperature and humidity, or [None] when the read
    raises [OSError]. *)
Definition reading := option (Z * Z).

(** [TemperatureSensor.read_temperature] *)
Definition sensor_read_temperature (r : reading) : App (option Z) :=
  match r with
  | Some (temp, hum) =>
      (tell [Log_i_note (TemperatureHumidity temp hum)] ;; app_ret (Some temp))%app
  | None => (tell [Log_e_note ErrorReadingSensor] ;; app_ret None)%app
  end.

(** [TemperatureFanControl.read_temperature] *)
Definition read_temperature (r : reading) : App Z :=
  (temp <- sensor_read_temperature r ;;
   app_ret (match temp with Some t => t | None => 25 end))%app.

Definition desired_state_for (temperature : Z) : Z :=
  if bool_decide (CRITICAL_THRESHOLD <= temperature) then 3
  else if bool_decide (FAN2_THRESHOLD <= temperature) then 2
  else if bool_decide (FAN1_THRESHOLD <= temperature) then 1
  else 0.

(** The two loops of [update_system]. *)
Fixpoint update_system_up (fuel : nat) (desired_state : Z) : App unit :=
  fun ctl =>
    let current_state := _curState (_model ctl) in
    if bool_decide (current_state < desired_state) then
      match fuel with
      | O => Unfinished ctl
      | S fuel' =>
          ((if bool_decide (current_state = 0) then engine (processEvent "fan1_on")
            else if bool_decide (current_state = 1) then engine (processEvent "both_fans_on")
            else if bool_decide (current_state = 2) then engine (processEvent "critical_temp")
            else app_ret tt) ;;
           update_system_up fuel' desired_state)%app ctl
      end
    else Done tt ctl.

Fixpoint update_system_down (fuel : nat) (desired_state : Z) : App unit :=
  fun ctl =>
    let current_state := _curState (_model ctl) in
    if bool_decide (desired_state < current_state) then
      match fuel with
      | O => Unfinished ctl
      | S fuel' =>
          (engine (processEvent "temp_drop") ;;
           update_system_down fuel' desired_state)%app ctl
      end
    else Done tt ctl.

Definition update_system (fuel : nat) (r : reading) : App unit :=
  (temperature <- read_temperature r ;;
   tell [Log_i_note (CurrentTemperature temperature)] ;;
   tell [lcd_clear] ;;
   tell [lcd_showText (Temp temperature) 0 0] ;;
   let desired_state := desired_state_for temperature in
   update_system_up fuel desired_state ;;
   update_system_down fuel desired_state)%app.

(** [current_time] is what [time.ticks_ms()] returns. *)
Definition warning_beep (current_time : Z) : App unit :=
  if bool_decide (current_time `mod` 200 < 100) then tell [buzzer_play 1000]
  else tell [buzzer_stop].

(** What the world supplies in one round of the loop: the clock and the
    sensor. *)
Record input := { ticks_ms : Z; dht11 : reading }.

Definition stateDo (fuel : nat) (i : input) (state : Z) : App unit :=
  ((if bool_decide (state = 3) then warning_beep (ticks_ms i) else app_ret tt) ;;
   update_system fuel (dht11 i))%app.

Section Run.
(** Modelled from the spec: the timer classes are not among the sources.
    [check t] stands for one round's treatment of an attached timer: the
    test whether it is a software timer and, if so, its [check()], which
    fires the timer's timeout event when it is due. *)
Variable check : Timer -> App unit.

Fixpoint check_timers (ts : list Timer) : App unit :=
  match ts with
  | [] => app_ret tt
  | t :: ts' => (check t ;; check_timers ts')%app
  end.

(** The loop of [StateModel.run] with this handler, one input per round.
    The pause between rounds changes nothing and is left out; when the
    inputs are used up the loop is cut off. *)
Fixpoint run_loop (fuel : nat) (inputs : list input) : App unit :=
  fun ctl =>
    if _running (_model ctl) then
      match inputs with
      | [] => Unfinished ctl
      | i :: inputs' =>
          (stateDo fuel i (_curState (_model ctl)) ;;
           (fun ctl' => check_timers (_timers (_model ctl')) ctl') ;;
           engine (processEvent "no_event") ;;
           run_loop fuel inputs')%app ctl
      end
    else Done tt ctl.

Definition run (fuel : nat) (inputs : list input) : App unit :=
  (engine start ;; run_loop fuel inputs)%app.

End Run.

(** The table of the fan controller, wherever the engine currently is. *)
Definition fan_table (m : StateModel) : Prop :=
  _numstates m = 4 /\
  (forall e, e ∈ ["no_event"; "fan1_on"; "both_fans_on"; "critical_temp"; "temp_drop"]%string ->
             e ∈ _events m) /\
  _timers m = [] /\
  row_of m 0 = Some [("fan1_on"%string, 1)] /\
  row_of m 1 = Some [("both_fans_on"%string, 2); ("temp_drop"%string, 0)] /\
  row_of m 2 = Some [("critical_temp"%string, 3); ("temp_drop"%string, 1)] /\
  row_of m 3 = Some [("temp_drop"%string, 2)].

(** The last command given to a device, if any. *)
Definition latest {X} (pick : command -> option X) (cs : list command) : option X :=
  fold_left (fun acc c => match pick c with Some x => Some x | None => acc end) cs None.

Inductive drive := at_speed (speed : Z) | at_rest.
Inductive sound := tone_on (tone : Z) | tone_off.

Definition fan1 : list command -> option drive :=
  latest (fun c => match c with
                   | fan1_run s => Some (at_speed s)
                   | fan1_stop => Some at_rest
                   | _ => None
                   end).

Definition fan2 : list command -> option drive :=
  latest (fun c => match c with
                   | fan2_run s => Some (at_speed s)
                   | fan2_stop => Some at_rest
                   | _ => None
                   end).

Definition buzzer : list command -> option sound :=
  latest (fun c => match c with
                   | buzzer_play t => Some (tone_on t)
                   | buzzer_stop => Some tone_off
                   | _ => None
                   end).

Definition led_strip : list command -> option (Z * Z * Z) :=
  latest (fun c => match c with
                   | led_strip_setColor r g b => Some (r, g, b)
                   | _ => None
                   end).

(** The devices are as the state asks: Idle, Fan 1 On, Both Fans On,
    Critical.  In the critical state the buzzer is left to the hazard
    pattern; in every other state it is silent. *)
Definition devices_match (state : Z) (cs : list command) : Prop :=
  if bool_decide (state = 0) then
    fan1 cs = Some at_rest /\ fan2 cs = Some at_rest /\
    buzzer cs = Some tone_off /\ led_strip cs = Some (0, 0, 255)
  else if bool_decide (state = 1) then
    fan1 cs = Some (at_speed 50) /\ fan2 cs = Some at_rest /\
    buzzer cs = Some tone_off /\ led_strip cs = Some (0, 255, 0)
  else if bool_decide (state = 2) then
    fan1 cs = Some (at_speed 75) /\ fan2 cs = Some (at_speed 75) /\
    buzzer cs = Some tone_off /\ led_strip cs = Some (255, 255, 0)
  else if bool_decide (state = 3) then
    fan1 cs = Some (at_speed 75) /\ fan2 cs = Some (at_speed 75) /\
    led_strip cs = Some (255, 0, 0)
  else False.

(** A controller whose engine has the fan table and is in one of the four
    states. *)
Definition on_table (c : Controller) : Prop :=
  fan_table (_model c) /\
  0 <= _curState (_model c) <= 3.

(** A controller on the table whose devices are as its state asks. *)
Definition in_step (c : Controller) : Prop :=
  fan_table (_model c) /\
  0 <= _curState (_model c) <= 3 /\
  devices_match (_curState (_model c)) (commands c).

(** The temperature [update_system] works with. *)
Definition temperature_of (r : reading) : Z :=
  match r with Some (temp, _) => temp | None => 25 end.

(** Commands that go to the logger or the display leave the fans, the
    buzzer and the light strip as they are. *)
Definition aside (cs : list command) : Prop :=
  Forall (fun c => match c with
                   | lcd_clear | lcd_showText _ _ _
                   | Log_i_note _ | Log_d_note _ | Log_e_note _ => True
                   | _ => False
                   end) cs.

(** The controller as constructed, with its engine started. *)
Definition started_controller : Controller :=
  ended (engine start (ended TemperatureFanControl)).

(** * Properties *)

(** ** Tactics, the monad, traces *)

Ltac run := unfold bind, self, ret, raise, assign, when, emit; simpl.

Ltac step E := unfold bind at 1; rewrite E.

Lemma bind_assoc {A B C} (c : M A) (k : A -> M B) (k' : B -> M C) m :
  bind (bind c k) k' m = bind c (fun a => bind (k a) k') m.
Proof. unfold bind. by destruct (c m). Qed.

Lemma bind_ext {A B} (c : M A) (k k' : A -> M B) m :
  (forall a m', k a m' = k' a m') -> bind c k m = bind c k' m.
Proof. intros H. unfold bind. by destruct (c m). Qed.

Lemma set_trace_same m : set_trace (trace m) m = m.
Proof. by destruct m. Qed.

Lemma handler_calls_app t1 t2 :
  handler_calls (t1 ++ t2) = handler_calls t1 ++ handler_calls t2.
Proof. apply List.filter_app. Qed.

Lemma handler_calls_detached bs ts cur : handler_calls (detached bs ts cur) = [].
Proof.
  unfold detached. rewrite handler_calls_app.
  assert (handler_calls ((fun b => (button_setHandler (button_name b) false, cur)) <$> bs)
          = []) as ->.
  { induction bs as [|b bs IH]; simpl; [done | apply IH]. }
  induction ts as [|t ts IH]; simpl; [done | apply IH].
Qed.

(** ** Python lists and rows *)

Lemma py_index_lt {A} (l : list A) i k :
  py_index l i = Some k -> (k < length l)%nat.
Proof.
  unfold py_index. repeat case_bool_decide; intros [= <-]; lia.
Qed.

Lemma py_index_insert {A} (l : list A) j v i :
  py_index (<[j:=v]> l) i = py_index l i.
Proof. unfold py_index. by rewrite length_insert. Qed.

Lemma py_index_last {A} (l : list A) n :
  Z.of_nat (length l) = n -> py_index l (-1) = py_index l (n - 1).
Proof.
  intros <-. unfold py_index. destruct l as [|x l]; [done|].
  simpl length. rewrite bool_decide_eq_false_2 by lia.
  rewrite bool_decide_eq_true_2 by lia.
  rewrite (bool_decide_eq_true_2 (0 <= _ - 1 < _)) by lia.
  f_equal.
Qed.

Lemma transitions_getitem_at i k r m :
  py_index (_transitions m) i = Some k ->
  _transitions m !! k = Some r ->
  transitions_getitem i m = Return r m.
Proof. intros Hk Hr. unfold transitions_getitem. run. by rewrite Hk, Hr. Qed.

Lemma transitions_setitem_at i k v m :
  py_index (_transitions m) i = Some k ->
  transitions_setitem i v m
  = Return tt (set_transitions (<[k:=v]> (_transitions m)) m).
Proof. intros Hk. unfold transitions_setitem. run. by rewrite Hk. Qed.

Lemma row_of_at i k l m :
  py_index (_transitions m) i = Some k ->
  _transitions m !! k = Some (Some l) ->
  row_of m i = Some (cells (heap m) l).
Proof. intros Hk Hr. unfold row_of. rewrite Hk. simpl. by rewrite Hr. Qed.

(** ** The registry *)

Lemma keeps_ret {A} (a : A) : keeps_events (ret a).
Proof. done. Qed.

Lemma keeps_raise {A} e : keeps_events (@raise A e).
Proof. done. Qed.

Lemma keeps_self : keeps_events self.
Proof. done. Qed.

Lemma keeps_emit e : keeps_events (emit e).
Proof. done. Qed.

Lemma keeps_assign f :
  (forall m, _events (f m) = _events m) -> keeps_events (assign f).
Proof. intros H m. apply H. Qed.

Lemma keeps_bind {A B} (c : M A) (k : A -> M B) :
  keeps_events c -> (forall a, keeps_events (k a)) -> keeps_events (bind c k).
Proof.
  intros Hc Hk m. unfold bind. specialize (Hc m).
  destruct (c m) as [a m'|e m']; simpl in *; [|done].
  by rewrite Hk.
Qed.

Lemma keeps_when b c : keeps_events c -> keeps_events (when b c).
Proof. by destruct b. Qed.

Create HintDb keeps.
#[local] Hint Resolve keeps_ret keeps_raise keeps_self keeps_emit keeps_when : keeps.

Ltac keeps :=
  repeat first
    [ solve [auto with keeps]
    | apply keeps_bind
    | apply keeps_when
    | apply keeps_assign; intros ?; reflexivity
    | match goal with |- forall _, _ => intro end
    | progress cbv beta
    | match goal with
      | |- keeps_events (match ?x with _ => _ end) => destruct x
      end ].

Lemma keeps_transitions_getitem i : keeps_events (transitions_getitem i).
Proof. unfold transitions_getitem. keeps. Qed.

Lemma keeps_transitions_setitem i v : keeps_events (transitions_setitem i v).
Proof. unfold transitions_setitem. keeps. Qed.

Lemma keeps_deref l : keeps_events (deref l).
Proof. unfold deref. keeps. Qed.

Lemma keeps_new_list r : keeps_events (new_list r).
Proof. unfold new_list. keeps. Qed.

Lemma keeps_list_append l x : keeps_events (list_append l x).
Proof. unfold list_append. keeps. Qed.

#[local] Hint Resolve keeps_transitions_getitem keeps_transitions_setitem
  keeps_deref keeps_new_list keeps_list_append : keeps.

Lemma keeps_py_not r : keeps_events (py_not r).
Proof. unfold py_not. keeps. Qed.

#[local] Hint Resolve keeps_py_not : keeps.

Lemma keeps_addTransition_body fromState event toState :
  keeps_events (addTransition_body fromState event toState).
Proof. unfold addTransition_body. keeps. Qed.

#[local] Hint Resolve keeps_addTransition_body : keeps.

Lemma keeps_addTransition fromState events toState :
  keeps_events (addTransition fromState events toState).
Proof. induction events; simpl; keeps. Qed.

Lemma keeps_check_row r : keeps_events (check_row r).
Proof. induction r as [|[e s] r IH]; simpl; keeps. Qed.

#[local] Hint Resolve keeps_addTransition keeps_check_row : keeps.

Lemma keeps_check_rows transitions : keeps_events (check_rows transitions).
Proof. induction transitions; simpl; keeps. Qed.

#[local] Hint Resolve keeps_check_rows : keeps.

Lemma keeps_setTransitionTable transitions :
  keeps_events (setTransitionTable transitions).
Proof. unfold setTransitionTable. keeps. Qed.

Lemma keeps_getTransition fromState event :
  keeps_events (getTransition fromState event).
Proof. unfold getTransition. keeps. Qed.

Lemma keeps_start : keeps_events start.
Proof. unfold start. keeps. Qed.

Lemma keeps_detach_buttons bs : keeps_events (detach_buttons bs).
Proof. induction bs; simpl; keeps. Qed.

Lemma keeps_detach_timers ts : keeps_events (detach_timers ts).
Proof. induction ts; simpl; keeps. Qed.

#[local] Hint Resolve keeps_getTransition keeps_detach_buttons keeps_detach_timers : keeps.

Lemma keeps_stop : keeps_events stop.
Proof. unfold stop. keeps. Qed.

Lemma keeps_gotoState newState event : keeps_events (gotoState newState event).
Proof. unfold gotoState. keeps. Qed.

#[local] Hint Resolve keeps_gotoState : keeps.

Lemma keeps_processEvent event : keeps_events (processEvent event).
Proof. unfold processEvent. keeps. Qed.

Lemma press_release_differ name : name +:+ "_press" ≠ name +:+ "_release".
Proof. induction name as [|a name IH]; simpl; [done | by intros [= H]]. Qed.

Lemma addCustomEvent_taken event m :
  event ∈ _events m ->
  addCustomEvent event m
  = Raise (ValueError ("An event with the name " +:+ event +:+ " already exists")) m.
Proof. intros H. unfold addCustomEvent. run. by rewrite bool_decide_eq_true_2. Qed.

Lemma addCustomEvent_free event m :
  event ∉ _events m ->
  addCustomEvent event m = Return tt (set_events (_events m ++ [event]) m).
Proof. intros H. unfold addCustomEvent. run. by rewrite bool_decide_eq_false_2. Qed.

Lemma addTimer_taken timer m :
  timer_name timer +:+ "_timeout" ∈ _events m ->
  addTimer timer m
  = Raise (ValueError ("A timer with name " +:+ timer_name timer +:+ " already exists")) m.
Proof. intros H. unfold addTimer. run. by rewrite bool_decide_eq_true_2. Qed.

Lemma addTimer_free timer m :
  timer_name timer +:+ "_timeout" ∉ _events m ->
  exists m', addTimer timer m = Return tt m' /\
             _events m' = _events m ++ [timer_name timer +:+ "_timeout"].
Proof.
  intros H. unfold addTimer. run. rewrite bool_decide_eq_false_2 by done.
  unfold append_event. run. by eexists.
Qed.

Lemma addButton_taken btn m :
  button_name btn +:+ "_press" ∈ _events m \/
  button_name btn +:+ "_release" ∈ _events m ->
  addButton btn m
  = Raise (ValueError ("There is already a button with the name " +:+ button_name btn)) m.
Proof.
  intros H. unfold addButton. run.
  destruct H as [H|H]; rewrite (bool_decide_eq_true_2 _ H); [done|].
  by rewrite orb_true_r.
Qed.

Lemma addButton_free btn m :
  button_name btn +:+ "_press" ∉ _events m ->
  button_name btn +:+ "_release" ∉ _events m ->
  exists m', addButton btn m = Return tt m' /\
             _events m' = _events m ++ [button_name btn +:+ "_press";
                                        button_name btn +:+ "_release"].
Proof.
  intros H1 H2. unfold addButton. run.
  rewrite !bool_decide_eq_false_2 by done. simpl.
  unfold append_event. run. eexists. split; [done|]. simpl.
  by rewrite <- app_assoc.
Qed.

Lemma NoDup_snoc (l : list string) e : NoDup l -> e ∉ l -> NoDup (l ++ [e]).
Proof.
  intros Hl He. apply NoDup_app. split; [done|]. split; [|apply NoDup_singleton].
  intros x Hx. rewrite list_elem_of_singleton. by intros ->.
Qed.

Lemma keeps_perform c : registers c = false -> keeps_events (perform c).
Proof.
  destruct c; intros [=]; unfold perform, buttonPressed, buttonReleased, timeout;
    auto using keeps_addTransition, keeps_setTransitionTable, keeps_start, keeps_stop,
      keeps_gotoState, keeps_processEvent; keeps.
Qed.

Lemma perform_events c m :
  NoDup (_events m) -> NoDup (_events (final (perform c m))).
Proof.
  intros Hm. destruct (registers c) eqn:Hc; [|by rewrite keeps_perform].
  destruct c; try discriminate Hc; unfold perform.
  - destruct (decide (button_name btn +:+ "_press" ∈ _events m)) as [H1|H1];
      [by rewrite addButton_taken by by left|].
    destruct (decide (button_name btn +:+ "_release" ∈ _events m)) as [H2|H2];
      [by rewrite addButton_taken by by right|].
    destruct (addButton_free btn m H1 H2) as (m' & -> & Hev). simpl. rewrite Hev.
    change [button_name btn +:+ "_press"; button_name btn +:+ "_release"]
      with ([button_name btn +:+ "_press"] ++ [button_name btn +:+ "_release"]).
    rewrite app_assoc. apply NoDup_snoc; [by apply NoDup_snoc|].
    rewrite elem_of_app, list_elem_of_singleton.
    intros [H|H]; [done|]. by apply (press_release_differ (button_name btn)).
  - destruct (decide (timer_name timer +:+ "_timeout" ∈ _events m)) as [H|H];
      [by rewrite addTimer_taken|].
    destruct (addTimer_free timer m H) as (m' & -> & Hev). simpl. rewrite Hev.
    by apply NoDup_snoc.
  - destruct (decide (event ∈ _events m)) as [H|H];
      [by rewrite addCustomEvent_taken|].
    rewrite addCustomEvent_free by done. simpl. by apply NoDup_snoc.
Qed.

Lemma reachable_events m : reachable m -> NoDup (_events m).
Proof.
  induction 1 as [numstates handler debug|c m Hm IH]; simpl.
  - apply NoDup_singleton.
  - by apply perform_events.
Qed.

(** C8: in every engine a program can reach, the names in the registry are
    pairwise distinct; and [addButton], [addTimer] and [addCustomEvent] raise
    a configuration error as soon as one of the names they compose
    ([name_press] or [name_release], [name_timeout], the name itself) is
    already there, leaving the engine, and so the registry, as it was. *)
Theorem registry_names_unique m :
  reachable m ->
  NoDup (_events m) /\
  (forall btn,
      button_name btn +:+ "_press" ∈ _events m \/
      button_name btn +:+ "_release" ∈ _events m ->
      configuration_error (addButton btn m) = true /\ final (addButton btn m) = m) /\
  (forall timer,
      timer_name timer +:+ "_timeout" ∈ _events m ->
      configuration_error (addTimer timer m) = true /\ final (addTimer timer m) = m) /\
  (forall event,
      event ∈ _events m ->
      configuration_error (addCustomEvent event m) = true /\
      final (addCustomEvent event m) = m).
Proof.
  intros Hm. split; [by apply reachable_events|]. split; [|split].
  - intros btn H. by rewrite addButton_taken.
  - intros timer H. by rewrite addTimer_taken.
  - intros event H. by rewrite addCustomEvent_taken.
Qed.

Lemma registry_names_unique_witness :
  reachable (final (perform (call_addCustomEvent "fan1_on") (__init__ 4 quiet false))) /\
  NoDup (_events (final (perform (call_addCustomEvent "fan1_on")
                           (__init__ 4 quiet false)))) /\
  configuration_error
    (addCustomEvent "fan1_on"
       (final (perform (call_addCustomEvent "fan1_on") (__init__ 4 quiet false))))
  = true.
Proof.
  assert (Hm : reachable (final (perform (call_addCustomEvent "fan1_on")
                                   (__init__ 4 quiet false))))
    by (apply reachable_call, reachable_init).
  destruct (registry_names_unique _ Hm) as (Hnodup & _ & _ & Hcustom).
  refine (conj Hm (conj Hnodup _)).
  apply (Hcustom "fan1_on"%string). compute_done.
Defined.

(** ** Building the table, one transition at a time *)

Section AddTransition.
Variables (fromState toState : Z).

Lemma addTransition_body_unregistered event m :
  event ∉ _events m ->
  addTransition_body fromState event toState m
  = Raise (ValueError ("Invalid event " +:+ event)) m.
Proof.
  intros He. unfold addTransition_body. run. by rewrite bool_decide_eq_false_2.
Qed.

(** A round of the loop for a registered event, when the row is still
    [None] or an empty list: a new list object takes its place. *)
Lemma addTransition_body_fresh event m k r :
  event ∈ _events m ->
  py_index (_transitions m) fromState = Some k ->
  _transitions m !! k = Some r ->
  py_not r m = Return true m ->
  exists m',
    addTransition_body fromState event toState m = Return tt m' /\
    _events m' = _events m /\
    py_index (_transitions m') fromState = Some k /\
    row_of m' fromState = Some [(event, toState)].
Proof.
  intros He Hk Hr Hnot. unfold addTransition_body.
  unfold bind at 1, self. rewrite bool_decide_eq_true_2 by done.
  step (transitions_getitem_at _ _ _ _ Hk Hr). step Hnot.
  unfold when. unfold bind at 2. unfold new_list at 1. run.
  pose proof (py_index_lt _ _ _ Hk) as Hlt.
  rewrite (transitions_setitem_at _ k) by done. simpl.
  rewrite (transitions_getitem_at _ k (Some (length (heap m))));
    [|by simpl; rewrite py_index_insert|by apply list_lookup_insert_eq].
  unfold list_append. run.
  eexists. split; [done|]. simpl. split; [done|].
  split; [by simpl; rewrite py_index_insert|].
  erewrite row_of_at; [|by simpl; rewrite py_index_insert|by apply list_lookup_insert_eq].
  simpl. unfold cells. rewrite lookup_app_r, Nat.sub_diag by done. simpl.
  rewrite list_lookup_insert_eq by (rewrite length_app; simpl; lia). done.
Qed.

(** A round of the loop for a registered event, when the row is a list that
    already has entries: the entry is appended to that list object. *)
Lemma addTransition_body_append event m k l x c :
  event ∈ _events m ->
  py_index (_transitions m) fromState = Some k ->
  _transitions m !! k = Some (Some l) ->
  heap m !! l = Some (x :: c) ->
  exists m',
    addTransition_body fromState event toState m = Return tt m' /\
    _events m' = _events m /\
    py_index (_transitions m') fromState = Some k /\
    row_of m' fromState = Some ((x :: c) ++ [(event, toState)]).
Proof.
  intros He Hk Hr Hl. unfold addTransition_body.
  unfold bind at 1, self. rewrite bool_decide_eq_true_2 by done.
  step (transitions_getitem_at _ _ _ _ Hk Hr).
  unfold py_not, deref, cells. run. rewrite Hl. simpl.
  rewrite (transitions_getitem_at _ _ _ _ Hk Hr).
  unfold list_append, cells. run. rewrite Hl. simpl.
  eexists. split; [done|]. simpl. split; [done|]. split; [done|].
  erewrite row_of_at; [|done|done]. simpl. unfold cells.
  rewrite list_lookup_insert_eq by eauto using lookup_lt_Some. done.
Qed.

Lemma addTransition_body_registered event m k :
  event ∈ _events m ->
  py_index (_transitions m) fromState = Some k ->
  exists m',
    addTransition_body fromState event toState m = Return tt m' /\
    _events m' = _events m /\
    py_index (_transitions m') fromState = Some k /\
    row_of m' fromState = Some (row_cells m fromState ++ [(event, toState)]).
Proof.
  intros He Hk.
  destruct (lookup_lt_is_Some_2 _ _ (py_index_lt _ _ _ Hk)) as [r Hr].
  unfold row_cells, row_of. rewrite Hk. simpl. rewrite Hr. simpl.
  destruct r as [l|]; simpl.
  - unfold cells. destruct (heap m !! l) as [[|x c]|] eqn:Hl; simpl.
    + eapply addTransition_body_fresh; eauto.
      unfold py_not, deref, cells. run. by rewrite Hl.
    + eapply addTransition_body_append; eauto.
    + eapply addTransition_body_fresh; eauto.
      unfold py_not, deref, cells. run. by rewrite Hl.
  - eapply addTransition_body_fresh; eauto.
Qed.

Lemma addTransition_app pre rest m :
  addTransition fromState (pre ++ rest) toState m
  = bind (addTransition fromState pre toState)
         (fun _ => addTransition fromState rest toState) m.
Proof.
  revert m. induction pre as [|e pre IH]; intros m; simpl; [done|].
  rewrite bind_assoc. apply bind_ext. intros _ m'. apply IH.
Qed.

Lemma addTransition_registered pre m k :
  Forall (fun e => e ∈ _events m) pre ->
  py_index (_transitions m) fromState = Some k ->
  exists m',
    addTransition fromState pre toState m = Return tt m' /\
    _events m' = _events m /\
    py_index (_transitions m') fromState = Some k /\
    row_cells m' fromState = row_cells m fromState ++ ((fun e => (e, toState)) <$> pre).
Proof.
  revert m. induction pre as [|e pre IH]; intros m Hpre Hk; simpl.
  - exists m. by rewrite app_nil_r.
  - inversion Hpre as [|? ? He Hrest]; subst.
    destruct (addTransition_body_registered e m k He Hk)
      as (m1 & E1 & Hev1 & Hk1 & Hrow1).
    destruct (IH m1) as (m' & E' & Hev' & Hk' & Hrow'); [by rewrite Hev1|done|].
    exists m'. step E1. split; [done|]. split; [congruence|]. split; [done|].
    rewrite Hrow'. unfold row_cells at 1. rewrite Hrow1. simpl.
    by rewrite <- app_assoc.
Qed.

(** C7, as the code has it: the loop of [addTransition] checks and appends
    name by name.  With [fromState] an index into the table, the call raises
    a configuration error at the first unregistered name, in the state that
    adding the names before it has produced: their entries are at the end of
    the row of [fromState], in order, and nothing is appended for the
    unregistered name or for those after it.  If the first name is the
    unregistered one the engine is exactly as before. *)
Theorem addTransition_stops_at_first_unregistered pre bad post m :
  Forall (fun e => e ∈ _events m) pre ->
  bad ∉ _events m ->
  is_Some (py_index (_transitions m) fromState) ->
  exists m',
    addTransition fromState pre toState m = Return tt m' /\
    addTransition fromState (pre ++ bad :: post) toState m
    = Raise (ValueError ("Invalid event " +:+ bad)) m' /\
    row_cells m' fromState = row_cells m fromState ++ ((fun e => (e, toState)) <$> pre) /\
    (pre = [] -> m' = m).
Proof.
  intros Hpre Hbad [k Hk].
  destruct (addTransition_registered pre m k Hpre Hk)
    as (m' & E & Hev & _ & Hrow).
  exists m'. split; [done|]. split; [|split; [done|]].
  - rewrite addTransition_app. step E. simpl. unfold bind.
    rewrite addTransition_body_unregistered; [done | by rewrite Hev].
  - intros ->. simpl in E. by injection E.
Qed.

End AddTransition.

Lemma addTransition_stops_at_first_unregistered_witness :
  Forall (fun e => e ∈ _events (__init__ 4 quiet false)) ["no_event"%string] /\
  ("bogus"%string ∉ _events (__init__ 4 quiet false)) /\
  is_Some (py_index (_transitions (__init__ 4 quiet false)) 0) /\
  exists m',
    addTransition 0 ["no_event"%string] 1 (__init__ 4 quiet false) = Return tt m' /\
    addTransition 0 (["no_event"%string] ++ "bogus"%string :: ["no_event"%string]) 1
      (__init__ 4 quiet false)
    = Raise (ValueError ("Invalid event " +:+ "bogus")) m' /\
    row_cells m' 0
    = row_cells (__init__ 4 quiet false) 0
        ++ ((fun e => (e, 1)) <$> ["no_event"%string]) /\
    (["no_event"%string] = [] -> m' = __init__ 4 quiet false).
Proof.
  assert (Hpre : Forall (fun e => e ∈ _events (__init__ 4 quiet false))
                        ["no_event"%string])
    by (constructor; [compute_done | constructor]).
  assert (Hbad : "bogus"%string ∉ _events (__init__ 4 quiet false)) by compute_done.
  assert (Hidx : is_Some (py_index (_transitions (__init__ 4 quiet false)) 0))
    by (vm_compute; eauto).
  refine (conj Hpre (conj Hbad (conj Hidx _))).
  exact (addTransition_stops_at_first_unregistered
           0 1 ["no_event"%string] "bogus" ["no_event"%string]
           (__init__ 4 quiet false) Hpre Hbad Hidx).
Defined.

(** A fresh four-state engine asked to add transitions from state 0 on
    [no_event] and on the unregistered [bogus]: the call raises a
    configuration error, and the entry for [no_event] is in row 0. *)
Lemma addTransition_partial_mutation :
  ("bogus"%string ∉ _events (__init__ 4 quiet false)) /\
  configuration_error
    (addTransition 0 ["no_event"%string; "bogus"%string] 1 (__init__ 4 quiet false))
  = true /\
  row_of (__init__ 4 quiet false) 0 = None /\
  row_of (final (addTransition 0 ["no_event"%string; "bogus"%string] 1
                   (__init__ 4 quiet false))) 0
  = Some [("no_event"%string, 1)].
Proof.
  split; [compute_done|].
  split; [vm_compute; reflexivity|].
  split; vm_compute; reflexivity.
Qed.

(** ** Building the table at once *)

Lemma check_row_spec r m :
  (known m r -> check_row r m = Return tt m) /\
  (~ known m r ->
   exists e, (e ∉ _events m) /\ check_row r m = Raise (ValueError ("Invalid event " +:+ e)) m).
Proof.
  unfold known. induction r as [|[e s] r [IHk IHu]]; simpl.
  - split; [done|]. intros H. destruct H. constructor.
  - unfold bind, self. case_bool_decide as He.
    + split.
      * intros H. apply IHk. by inversion H.
      * intros H. apply IHu. intros Hr. apply H. by constructor.
    + split.
      * intros H. inversion H; subst. done.
      * intros _. by exists e.
Qed.

Lemma check_rows_spec transitions m :
  (all_known m transitions -> check_rows transitions m = Return tt m) /\
  (~ all_known m transitions ->
   exists e, (e ∉ _events m) /\
             check_rows transitions m = Raise (ValueError ("Invalid event " +:+ e)) m).
Proof.
  unfold all_known. induction transitions as [|l rest [IHk IHu]]; simpl.
  - split; [done|]. intros H. destruct H. constructor.
  - unfold bind, deref, self, ret. simpl.
    destruct (check_row_spec (cells (heap m) l) m) as [Hk Hu].
    destruct (decide (known m (cells (heap m) l))) as [Hl|Hl].
    + rewrite (Hk Hl). split.
      * intros H. apply IHk. by inversion H.
      * intros H. apply IHu. intros Hr. apply H. by constructor.
    + destruct (Hu Hl) as (e & He & ->). split.
      * intros H. inversion H; subst. done.
      * intros _. by exists e.
Qed.

Lemma setTransitionTable_unfold transitions m :
  setTransitionTable transitions m =
  bind (check_rows transitions)
       (fun _ => assign (set_transitions (Some <$> transitions)))
       (resized (Z.of_nat (length transitions)) m).
Proof.
  unfold setTransitionTable, resized. unfold bind at 1, self. unfold bind at 1.
  unfold when. case_bool_decide; done.
Qed.

Lemma all_known_resized n m transitions :
  all_known (resized n m) transitions <-> all_known m transitions.
Proof. unfold resized. by case_bool_decide. Qed.

(** C6, as the code has it: [setTransitionTable] first compares the number
    of rows with the state count: when they differ it sets the state count
    to the number of rows and writes one error-level log line, and that is
    no error; when they agree it writes nothing.  Then it checks the event
    name of every pair of every row against the registry, before it commits
    the matrix.  If all are registered the call returns and the table is the
    new matrix.  If some name is unknown the call raises a configuration
    error for that name and the transition table is as before.  Either way
    the state count is the number of rows, the log has at most the one line
    more, and every row object is as before. *)
Theorem setTransitionTable_checks_then_commits transitions m :
  _numstates (final (setTransitionTable transitions m)) = Z.of_nat (length transitions) /\
  trace (final (setTransitionTable transitions m))
  = trace m
      ++ (if bool_decide (Z.of_nat (length transitions) ≠ _numstates m)
          then [(Log_e (ResettingNumberOfStates (Z.of_nat (length transitions))),
                 _curState m)]
          else []) /\
  heap (final (setTransitionTable transitions m)) = heap m /\
  ((all_known m transitions /\
    setTransitionTable transitions m
    = Return tt (final (setTransitionTable transitions m)) /\
    _transitions (final (setTransitionTable transitions m)) = Some <$> transitions) \/
   (~ all_known m transitions /\
    (exists e,
        (e ∉ _events m) /\
        setTransitionTable transitions m
        = Raise (ValueError ("Invalid event " +:+ e))
                (final (setTransitionTable transitions m))) /\
    _transitions (final (setTransitionTable transitions m)) = _transitions m)).
Proof.
  rewrite setTransitionTable_unfold.
  set (n := Z.of_nat (length transitions)).
  destruct (check_rows_spec transitions (resized n m)) as [Hk Hu].
  assert (Hcount : _numstates (resized n m) = n).
  { unfold resized. case_bool_decide as Hn; [done|]. symmetry.
    by destruct (decide (n = _numstates m)). }
  assert (Htrace : trace (resized n m)
                   = trace m ++ (if bool_decide (n ≠ _numstates m)
                                 then [(Log_e (ResettingNumberOfStates n), _curState m)]
                                 else [])).
  { unfold resized. case_bool_decide; [done|]. by rewrite app_nil_r. }
  assert (Hheap : heap (resized n m) = heap m)
    by (unfold resized; by case_bool_decide).
  assert (Htable : _transitions (resized n m) = _transitions m)
    by (unfold resized; by case_bool_decide).
  assert (Hevents : _events (resized n m) = _events m)
    by (unfold resized; by case_bool_decide).
  unfold bind.
  destruct (decide (all_known m transitions)) as [H|H].
  - rewrite Hk by by apply all_known_resized.
    cbn [final assign]. split; [done|]. split; [done|]. split; [done|].
    left. split; [done|]. split; done.
  - destruct Hu as (e & He & ->); [by rewrite all_known_resized|].
    cbn [final]. split; [done|]. split; [done|]. split; [done|].
    right. split; [done|]. split; [|done].
    exists e. split; [by rewrite <- Hevents|done].
Qed.

(** A two-state engine given a matrix of one row: no configuration error is
    raised, and the state count becomes 1. *)
Lemma setTransitionTable_row_count_mismatch :
  Z.of_nat (length [0%nat])
  ≠ _numstates (final (new_list [("no_event"%string, 0)] (__init__ 2 quiet false))) /\
  configuration_error
    (setTransitionTable [0%nat]
       (final (new_list [("no_event"%string, 0)] (__init__ 2 quiet false)))) = false /\
  _numstates
    (final (setTransitionTable [0%nat]
              (final (new_list [("no_event"%string, 0)] (__init__ 2 quiet false))))) = 1.
Proof.
  split; [vm_compute; discriminate|].
  split; vm_compute; reflexivity.
Qed.

(** ** Lookup *)

Lemma getTransition_row fromState event m r :
  row_of m fromState = Some r ->
  getTransition fromState event m = Return (getTransition_loop r event) m.
Proof.
  unfold row_of, getTransition, transitions_getitem, deref. run.
  destruct (py_index (_transitions m) fromState) as [k|]; simpl; [|done].
  destruct (_transitions m !! k) as [[l|]|]; simpl; try done.
  by intros [= <-].
Qed.

(** The loop returns the destination of the first entry for the event, or
    the sentinel. *)
Lemma getTransition_loop_first r event :
  getTransition_loop r event = -1 ∨
  ∃ pre s post, r = pre ++ (event, s) :: post ∧ (event ∉ pre.*1) ∧ getTransition_loop r event = s.
Proof.
  induction r as [|[e s] r IH]; simpl; [by left|].
  case_bool_decide as He.
  - subst e. right. exists [], s, r. split; [done|]. split; [|done]. simpl. apply not_elem_of_nil.
  - destruct IH as [IH|(pre & s' & post & -> & Hpre & Hs)]; [by left|].
    right. exists ((e, s) :: pre), s', post. split; [done|]. split; [|done].
    simpl. rewrite not_elem_of_cons. split; [congruence | done].
Qed.

Lemma getTransition_loop_entry pre event s post :
  event ∉ pre.*1 -> getTransition_loop (pre ++ (event, s) :: post) event = s.
Proof.
  induction pre as [|[e s'] pre IH]; simpl; intros Hpre.
  - by rewrite bool_decide_eq_true_2.
  - rewrite not_elem_of_cons in Hpre. destruct Hpre as [Hne Hpre].
    rewrite bool_decide_eq_false_2 by congruence. by apply IH.
Qed.

(** C4, at a state whose row was never populated: a fresh two-state engine
    holds [None] for every row, and looking up the registered [no_event] in
    state 0 raises a [TypeError] where the sentinel -1 was expected. *)
Theorem getTransition_unpopulated_row :
  0 <= 0 < _numstates (__init__ 2 quiet false) /\
  ("no_event"%string ∈ _events (__init__ 2 quiet false)) /\
  _transitions (__init__ 2 quiet false) = [None; None] /\
  getTransition 0 "no_event" (__init__ 2 quiet false)
  = Raise TypeError (__init__ 2 quiet false).
Proof.
  split; [vm_compute; split; [discriminate | reflexivity]|].
  split; [compute_done|]. split; vm_compute; reflexivity.
Qed.

(** ** Transitions *)

Lemma gotoState_below newState event m :
  newState < _numstates m ->
  gotoState newState event m = Return tt (moved newState event m).
Proof.
  intros Hlt. unfold gotoState. run.
  rewrite bool_decide_eq_true_2 by done.
  unfold moved. destruct (_debug m); simpl; unfold set_trace, set_curState; simpl;
    repeat rewrite <- app_assoc; reflexivity.
Qed.

(** C5, as the code has it: a target at or beyond the number of states is
    not rejected.  [gotoState] returns normally, the engine is left exactly
    as it was (same current state) and nothing is added to the trace, so no
    handler callback is made. *)
Theorem gotoState_beyond_is_silent newState event m :
  _numstates m <= newState -> gotoState newState event m = Return tt m.
Proof.
  intros Hge. unfold gotoState. run.
  rewrite bool_decide_eq_false_2 by lia. done.
Qed.

Lemma gotoState_beyond_is_silent_witness :
  _numstates (fan_running true) <= 4 /\
  gotoState 4 "no_event" (fan_running true) = Return tt (fan_running true).
Proof.
  assert (Hge : _numstates (fan_running true) <= 4) by (vm_compute; discriminate).
  split; [exact Hge | exact (gotoState_beyond_is_silent _ _ _ Hge)].
Defined.

(** The four-state engine, running in state 0, asked to go to state 4: the
    target is out of range and no configuration error is raised. *)
Lemma gotoState_out_of_range_not_rejected :
  ~ (0 <= 4 < _numstates (fan_running true)) /\
  configuration_error (gotoState 4 "no_event" (fan_running true)) = false.
Proof. split; [vm_compute; intros [_ H]; discriminate | vm_compute; reflexivity]. Qed.

Lemma processEvent_found event m newstate :
  event ∈ _events m ->
  getTransition (_curState m) event m = Return newstate m ->
  0 <= newstate ->
  processEvent event m =
  bind (when (_debug m) (emit (Log_d (ProcessingEvent event))))
       (fun _ => gotoState newstate event) m.
Proof.
  intros He Hget Hpos. unfold processEvent.
  unfold bind at 1, self. rewrite bool_decide_eq_true_2 by done.
  unfold bind at 1. rewrite Hget.
  rewrite bool_decide_eq_true_2 by done. done.
Qed.

Lemma processEvent_hit event m r :
  event ∈ _events m ->
  row_of m (_curState m) = Some r ->
  0 <= getTransition_loop r event ->
  processEvent event m =
  bind (when (_debug m) (emit (Log_d (ProcessingEvent event))))
       (fun _ => gotoState (getTransition_loop r event) event) m.
Proof.
  intros He Hr Hpos. apply processEvent_found; [done| |done].
  by apply getTransition_row.
Qed.

(** C3: a transition, whether forced by [gotoState] or found in the table by
    [processEvent], makes exactly two handler calls: [stateLeft] with the old
    current state and the event, made while the current state is still the
    old one, and then [stateEntered] with the new current state and the same
    event, made once the current state is the new one. *)
Theorem transition_calls_in_order newState event m :
  newState < _numstates m ->
  (exists m',
      gotoState newState event m = Return tt m' /\
      _curState m' = newState /\
      handler_calls (trace m') =
      handler_calls (trace m) ++ [(stateLeft (_curState m) event, _curState m);
                                  (stateEntered newState event, newState)]) /\
  (event ∈ _events m ->
   getTransition (_curState m) event m = Return newState m ->
   0 <= newState ->
   exists m',
     processEvent event m = Return tt m' /\
     _curState m' = newState /\
     handler_calls (trace m') =
     handler_calls (trace m) ++ [(stateLeft (_curState m) event, _curState m);
                                 (stateEntered newState event, newState)]).
Proof.
  intros Hlt. split.
  - exists (moved newState event m). split; [by apply gotoState_below|].
    split; [done|]. unfold moved; simpl.
    rewrite !handler_calls_app. by destruct (_debug m).
  - intros He Hget Hpos.
    rewrite (processEvent_found _ _ _ He Hget Hpos).
    unfold bind, when. destruct (_debug m) eqn:Hd.
    + unfold emit. rewrite gotoState_below by done.
      eexists; split; [done|]. split; [done|]. unfold moved; simpl.
      rewrite Hd, !handler_calls_app. simpl. by rewrite app_nil_r.
    + unfold ret. rewrite gotoState_below by done.
      eexists; split; [done|]. split; [done|]. unfold moved; simpl.
      rewrite Hd, !handler_calls_app. done.
Qed.

Lemma transition_calls_in_order_witness :
  1 < _numstates (fan_running true) /\
  ("fan1_on"%string ∈ _events (fan_running true)) /\
  getTransition (_curState (fan_running true)) "fan1_on" (fan_running true)
  = Return 1 (fan_running true) /\
  (exists m',
      gotoState 1 "fan1_on" (fan_running true) = Return tt m' /\
      _curState m' = 1 /\
      handler_calls (trace m') =
      handler_calls (trace (fan_running true))
        ++ [(stateLeft 0 "fan1_on", 0); (stateEntered 1 "fan1_on", 1)]) /\
  (exists m',
      processEvent "fan1_on" (fan_running true) = Return tt m' /\
      _curState m' = 1 /\
      handler_calls (trace m') =
      handler_calls (trace (fan_running true))
        ++ [(stateLeft 0 "fan1_on", 0); (stateEntered 1 "fan1_on", 1)]).
Proof.
  assert (Hlt : 1 < _numstates (fan_running true)) by (vm_compute; reflexivity).
  assert (He : "fan1_on"%string ∈ _events (fan_running true)) by compute_done.
  assert (Hget : getTransition (_curState (fan_running true)) "fan1_on" (fan_running true)
                 = Return 1 (fan_running true)) by (vm_compute; reflexivity).
  destruct (transition_calls_in_order 1 "fan1_on" (fan_running true) Hlt) as [Hgo Hpe].
  refine (conj Hlt (conj He (conj Hget (conj Hgo _)))).
  apply (Hpe He Hget). lia.
Defined.

(** ** Dispatch *)

(** C1: an event name that is not in the registry makes [processEvent] raise
    a configuration error, and the engine is left exactly as it was, whatever
    its current state and whether it is running or stopped. *)
Theorem processEvent_unregistered event m :
  event ∉ _events m ->
  processEvent event m = Raise (ValueError ("Invalid event " +:+ event)) m.
Proof.
  intros Hnot. unfold processEvent. run.
  by rewrite bool_decide_eq_false_2.
Qed.

Lemma processEvent_unregistered_witness :
  ("bogus"%string ∉ _events (fan_running false)) /\
  processEvent "bogus" (fan_running false)
  = Raise (ValueError "Invalid event bogus") (fan_running false).
Proof.
  assert (Hnot : "bogus"%string ∉ _events (fan_running false)) by compute_done.
  split; [exact Hnot | exact (processEvent_unregistered _ _ Hnot)].
Defined.

(** With the debug flag set, an event without a transition in the current
    row is handed to [stateEvent], once, and the current state stays. *)
Lemma processEvent_miss_debug event m r :
  event ∈ _events m ->
  row_of m (_curState m) = Some r ->
  getTransition_loop r event < 0 ->
  event ≠ "no_event"%string ->
  _debug m = true ->
  processEvent event m =
  Return tt
    (set_trace
       (trace m ++ (stateEvent (_curState m) event, _curState m)
          :: (if stateEvent_result (_handler m) (_curState m) event then []
              else [(Log_d (IgnoringEvent event), _curState m)]))
       m).
Proof.
  intros He Hr Hneg Hne Hd. unfold processEvent.
  unfold bind at 1, self. rewrite bool_decide_eq_true_2 by done.
  unfold bind at 1. rewrite (getTransition_row _ _ _ _ Hr).
  rewrite bool_decide_eq_false_2 by lia. rewrite Hd. run.
  rewrite bool_decide_eq_true_2 by done. simpl.
  destruct (stateEvent_result _ _ _); simpl; [done|].
  unfold set_trace; simpl. by rewrite <- app_assoc.
Qed.

(** Without the debug flag nothing at all happens. *)
Lemma processEvent_miss_quiet event m r :
  event ∈ _events m ->
  row_of m (_curState m) = Some r ->
  getTransition_loop r event < 0 ->
  _debug m = false ->
  processEvent event m = Return tt m.
Proof.
  intros He Hr Hneg Hd. unfold processEvent.
  unfold bind at 1, self. rewrite bool_decide_eq_true_2 by done.
  unfold bind at 1. rewrite (getTransition_row _ _ _ _ Hr).
  rewrite bool_decide_eq_false_2 by lia. by rewrite Hd.
Qed.

(** C2, at an engine built without the debug flag: the fan controller's
    engine runs in state 0, whose row has no entry for the registered event
    [temp_drop]; [processEvent] returns with the engine unchanged and the
    handler's [stateEvent] is not called.  The same engine built with the
    debug flag does call [stateEvent 0 temp_drop]. *)
Theorem processEvent_in_state_event_needs_debug :
  ("temp_drop"%string ∈ _events (fan_running false)) /\
  _curState (fan_running false) = 0 /\
  row_of (fan_running false) 0 = Some [("fan1_on"%string, 1)] /\
  processEvent "temp_drop" (fan_running false) = Return tt (fan_running false) /\
  handler_calls (trace (final (processEvent "temp_drop" (fan_running false)))) =
  handler_calls (trace (fan_running false)) /\
  trace (final (processEvent "temp_drop" (fan_running true))) =
  trace (fan_running true) ++ [(stateEvent 0 "temp_drop", 0);
                               (Log_d (IgnoringEvent "temp_drop"), 0)].
Proof.
  split; [compute_done|].
  split; [vm_compute; reflexivity|].
  split; [vm_compute; reflexivity|].
  split; [vm_compute; reflexivity|].
  split; vm_compute; reflexivity.
Qed.

(** ** Stopping *)

Lemma detach_buttons_trace bs m :
  detach_buttons bs m
  = Return tt (set_trace
                 (trace m ++ ((fun b => (button_setHandler (button_name b) false,
                                         _curState m)) <$> bs)) m).
Proof.
  revert m. induction bs as [|b bs IH]; intros m; simpl.
  - by rewrite app_nil_r, set_trace_same.
  - unfold bind, emit. rewrite IH. simpl. unfold set_trace; simpl.
    by rewrite <- app_assoc.
Qed.

Lemma detach_timers_trace ts m :
  detach_timers ts m
  = Return tt (set_trace
                 (trace m ++ (ts ≫= fun t =>
                                [(timer_setHandler (timer_name t) false, _curState m);
                                 (timer_cancel (timer_name t), _curState m)])) m).
Proof.
  revert m. induction ts as [|t ts IH]; intros m; simpl.
  - by rewrite app_nil_r, set_trace_same.
  - unfold bind, emit. simpl. rewrite IH. simpl. unfold set_trace; simpl.
    by rewrite <- !app_assoc.
Qed.

Lemma stop_stopped m : stop m = Return tt (stopped m).
Proof.
  unfold stop, stopped, detached. unfold bind at 1, self. unfold bind at 1.
  destruct (_running m); unfold when, emit, ret; run;
    rewrite detach_buttons_trace; simpl; rewrite detach_timers_trace; simpl;
    unfold set_curState, set_trace; simpl; by rewrite <- ?app_assoc.
Qed.

(** C9: [stop] on a running engine calls [stateLeft] with the current state
    and [no_event], once and first; then it clears the handler of every
    button, clears the handler of every timer and cancels it; the engine
    ends up not running with current state -1.  A second [stop] does the
    detaching again and makes no handler call. *)
Theorem stop_leaves_once_then_detaches m :
  _running m = true ->
  exists m1 m2,
    stop m = Return tt m1 /\
    trace m1 = trace m ++ (stateLeft (_curState m) "no_event", _curState m)
                            :: detached (_buttons m) (_timers m) (_curState m) /\
    handler_calls (trace m1)
    = handler_calls (trace m) ++ [(stateLeft (_curState m) "no_event", _curState m)] /\
    _running m1 = false /\
    _curState m1 = -1 /\
    stop m1 = Return tt m2 /\
    trace m2 = trace m1 ++ detached (_buttons m) (_timers m) (-1) /\
    handler_calls (trace m2) = handler_calls (trace m1) /\
    _running m2 = false /\
    _curState m2 = -1.
Proof.
  intros Hrun. exists (stopped m), (stopped (stopped m)).
  split; [apply stop_stopped|].
  assert (Ht : trace (stopped m)
               = trace m ++ (stateLeft (_curState m) "no_event", _curState m)
                   :: detached (_buttons m) (_timers m) (_curState m)).
  { unfold stopped; simpl. by rewrite Hrun. }
  split; [exact Ht|]. split.
  { rewrite Ht, handler_calls_app. simpl. by rewrite handler_calls_detached. }
  split; [done|]. split; [done|]. split; [apply stop_stopped|].
  assert (Ht2 : trace (stopped (stopped m))
                = trace (stopped m) ++ detached (_buttons m) (_timers m) (-1)) by done.
  split; [exact Ht2|]. split; [|done].
  by rewrite Ht2, handler_calls_app, handler_calls_detached, app_nil_r.
Qed.

Lemma stop_leaves_once_then_detaches_witness :
  _running (fan_running true) = true /\
  exists m1 m2,
    stop (fan_running true) = Return tt m1 /\
    trace m1 = trace (fan_running true)
                 ++ (stateLeft (_curState (fan_running true)) "no_event",
                     _curState (fan_running true))
                 :: detached (_buttons (fan_running true)) (_timers (fan_running true))
                      (_curState (fan_running true)) /\
    handler_calls (trace m1)
    = handler_calls (trace (fan_running true))
        ++ [(stateLeft (_curState (fan_running true)) "no_event",
             _curState (fan_running true))] /\
    _running m1 = false /\
    _curState m1 = -1 /\
    stop m1 = Return tt m2 /\
    trace m2 = trace m1 ++ detached (_buttons (fan_running true))
                             (_timers (fan_running true)) (-1) /\
    handler_calls (trace m2) = handler_calls (trace m1) /\
    _running m2 = false /\
    _curState m2 = -1.
Proof.
  assert (Hrun : _running (fan_running true) = true) by (vm_compute; reflexivity).
  exact (conj Hrun (stop_leaves_once_then_detaches (fan_running true) Hrun)).
Defined.

(** ** Dispatch while stopped *)

(** C10: a stopped engine (current state -1) does not reject a registered
    event.  The lookup at index -1 reads the row of the last state; when the
    first entry for the event in that row leads to a state, [processEvent]
    calls [stateLeft] with -1, makes that state the current one and calls
    [stateEntered] with it. *)
Theorem processEvent_while_stopped event m pre target post :
  _running m = false ->
  _curState m = -1 ->
  Z.of_nat (length (_transitions m)) = _numstates m ->
  event ∈ _events m ->
  row_of m (_numstates m - 1) = Some (pre ++ (event, target) :: post) ->
  event ∉ pre.*1 ->
  0 <= target < _numstates m ->
  getTransition (-1) event m = getTransition (_numstates m - 1) event m /\
  exists m',
    processEvent event m = Return tt m' /\
    _curState m' = target /\
    handler_calls (trace m')
    = handler_calls (trace m) ++ [(stateLeft (-1) event, -1);
                                  (stateEntered target event, target)].
Proof.
  intros _ Hcur Hlen He Hrow Hpre Htarget.
  assert (Hlast : row_of m (-1) = Some (pre ++ (event, target) :: post)).
  { unfold row_of in *. by rewrite (py_index_last _ _ Hlen). }
  split.
  { by rewrite (getTransition_row _ _ _ _ Hlast), (getTransition_row _ _ _ _ Hrow). }
  rewrite <- Hcur in Hlast.
  pose proof (getTransition_loop_entry pre event target post Hpre) as Hloop.
  rewrite (processEvent_hit _ _ _ He Hlast) by lia. rewrite Hloop.
  unfold bind, when. destruct (_debug m) eqn:Hd.
  - unfold emit. rewrite gotoState_below by (simpl; lia).
    eexists; split; [done|]. split; [done|]. unfold moved; simpl.
    rewrite Hd, Hcur, !handler_calls_app. simpl. by rewrite app_nil_r.
  - unfold ret. rewrite gotoState_below by lia.
    eexists; split; [done|]. split; [done|]. unfold moved; simpl.
    rewrite Hd, Hcur, !handler_calls_app. done.
Qed.

Lemma processEvent_while_stopped_witness :
  _running (fan_model false) = false /\
  _curState (fan_model false) = -1 /\
  Z.of_nat (length (_transitions (fan_model false))) = _numstates (fan_model false) /\
  ("temp_drop"%string ∈ _events (fan_model false)) /\
  row_of (fan_model false) (_numstates (fan_model false) - 1)
  = Some ([] ++ ("temp_drop"%string, 2) :: []) /\
  getTransition (-1) "temp_drop" (fan_model false)
  = getTransition (_numstates (fan_model false) - 1) "temp_drop" (fan_model false) /\
  exists m',
    processEvent "temp_drop" (fan_model false) = Return tt m' /\
    _curState m' = 2 /\
    handler_calls (trace m')
    = handler_calls (trace (fan_model false))
        ++ [(stateLeft (-1) "temp_drop", -1); (stateEntered 2 "temp_drop", 2)].
Proof.
  assert (Hrun : _running (fan_model false) = false) by (vm_compute; reflexivity).
  assert (Hcur : _curState (fan_model false) = -1) by (vm_compute; reflexivity).
  assert (Hlen : Z.of_nat (length (_transitions (fan_model false)))
                 = _numstates (fan_model false)) by (vm_compute; reflexivity).
  assert (He : "temp_drop"%string ∈ _events (fan_model false)) by compute_done.
  assert (Hrow : row_of (fan_model false) (_numstates (fan_model false) - 1)
                 = Some ([] ++ ("temp_drop"%string, 2) :: []))
    by (vm_compute; reflexivity).
  assert (Hpre : "temp_drop"%string ∉ ([] : row).*1) by apply not_elem_of_nil.
  assert (Htarget : 0 <= 2 < _numstates (fan_model false))
    by (vm_compute; split; [discriminate | reflexivity]).
  refine (conj Hrun (conj Hcur (conj Hlen (conj He (conj Hrow _))))).
  exact (processEvent_while_stopped "temp_drop" (fan_model false) [] 2 []
           Hrun Hcur Hlen He Hrow Hpre Htarget).
Defined.

(** * Further properties *)

(** ** What dispatch leaves alone *)

Section Frames.
Context {B : Type} (f : StateModel -> B).

Lemma frames_ret {A} (a : A) : frames f (ret a).
Proof. done. Qed.

Lemma frames_raise {A} e : frames f (@raise A e).
Proof. done. Qed.

Lemma frames_self : frames f self.
Proof. done. Qed.

Lemma frames_assign g : (forall m, f (g m) = f m) -> frames f (assign g).
Proof. intros H m. apply H. Qed.

Lemma frames_emit e : (forall t m, f (set_trace t m) = f m) -> frames f (emit e).
Proof. intros H m. apply H. Qed.

Lemma frames_bind {A C} (c : M A) (k : A -> M C) :
  frames f c -> (forall a, frames f (k a)) -> frames f (bind c k).
Proof.
  intros Hc Hk m. unfold bind. specialize (Hc m).
  destruct (c m) as [a m'|e m']; simpl in *; [|done].
  by rewrite Hk.
Qed.

Lemma frames_when b c : frames f c -> frames f (when b c).
Proof. by destruct b. Qed.

End Frames.

Ltac frames :=
  repeat first
    [ apply frames_ret | apply frames_raise | apply frames_self
    | apply frames_bind
    | apply frames_when
    | apply frames_assign; intros ?; reflexivity
    | apply frames_emit; intros ? ?; reflexivity
    | match goal with |- forall _, _ => intro end
    | progress cbv beta
    | match goal with
      | |- frames _ (match ?x with _ => _ end) => destruct x
      end ].

Lemma frames_getTransition {B} (f : StateModel -> B) fromState event :
  frames f (getTransition fromState event).
Proof. unfold getTransition, transitions_getitem, deref. frames. Qed.

Lemma getTransition_pure fromState event m :
  final (getTransition fromState event m) = m.
Proof. apply (frames_getTransition (fun m => m)). Qed.

Lemma frames_gotoState_setup newState event : frames setup (gotoState newState event).
Proof. unfold gotoState. frames. Qed.

Lemma frames_processEvent_setup event : frames setup (processEvent event).
Proof.
  unfold processEvent. frames; auto using frames_getTransition, frames_gotoState_setup.
Qed.

(** X2: however it ends, [processEvent] changes nothing in the engine but
    the current state and the trace: the state count, the running flag, the
    table and its row objects, the handler, the debug flag, the registry and
    the adapter lists are as before. *)
Theorem processEvent_changes_only_state_and_trace event m :
  setup (final (processEvent event m)) = setup m.
Proof.
  apply frames_processEvent_setup.
Qed.

Lemma getTransition_raises fromState event m x m' :
  getTransition fromState event m = Raise x m' ->
  m' = m /\ (x = TypeError \/ x = IndexError).
Proof.
  unfold getTransition, transitions_getitem, deref. run.
  destruct (py_index (_transitions m) fromState) as [k|]; simpl;
    [|intros [= <- <-]; auto].
  destruct (_transitions m !! k) as [[l|]|]; simpl; intros [= <- <-]; auto.
Qed.

Lemma getTransition_returns fromState event m t m' :
  getTransition fromState event m = Return t m' -> m' = m.
Proof. intros H. by rewrite <- (getTransition_pure fromState event m), H. Qed.

Lemma gotoState_total newState event m :
  gotoState newState event m
  = Return tt (if bool_decide (newState < _numstates m) then moved newState event m else m).
Proof.
  case_bool_decide; [by apply gotoState_below|].
  unfold gotoState. run. by rewrite bool_decide_eq_false_2.
Qed.

Lemma processEvent_absent event m :
  event ∉ _events m ->
  processEvent event m = Raise (ValueError ("Invalid event " +:+ event)) m.
Proof.
  intros Hnot. unfold processEvent. run. by rewrite bool_decide_eq_false_2.
Qed.

Lemma processEvent_dispatched event m : dispatched event m (processEvent event m).
Proof.
  destruct (decide (event ∈ _events m)) as [He|He];
    [|rewrite processEvent_absent by done; by constructor].
  unfold processEvent. unfold bind at 1, self. rewrite bool_decide_eq_true_2 by done.
  unfold bind at 1.
  destruct (getTransition (_curState m) event m) as [t m0|x m0] eqn:Hget.
  - pose proof (getTransition_returns _ _ _ _ _ Hget) as ->.
    case_bool_decide as Hpos.
    + unfold bind, when. destruct (decide (t < _numstates m)) as [Hlt|Hge].
      * pose proof (dispatch_taken event m t He Hget (conj Hpos Hlt)) as H.
        destruct (_debug m) eqn:Hd; unfold emit, ret; rewrite gotoState_below by done;
          exact H.
      * destruct (_debug m) eqn:Hd; unfold emit, ret; rewrite gotoState_total;
          rewrite bool_decide_eq_false_2 by done; apply dispatch_stays; auto; left;
          simpl; rewrite ?handler_calls_app; simpl; by rewrite ?app_nil_r.
    + unfold when. destruct (_debug m) eqn:Hd; [|apply dispatch_stays; auto].
      case_bool_decide; [|apply dispatch_stays; auto]. run.
      destruct (stateEvent_result _ _ _); simpl; apply dispatch_stays; auto; right;
        simpl; rewrite ?handler_calls_app; simpl; by rewrite ?app_nil_r.
  - destruct (getTransition_raises _ _ _ _ _ Hget) as [-> _]. by constructor.
Qed.

(** X1: [processEvent] ends in a configuration error exactly when the event
    is not in the registry.  For a registered event it returns, or it ends
    in the [TypeError] or the [IndexError] of the lookup with the engine as
    it was; it raises nothing else. *)
Theorem processEvent_error_iff_unregistered event m :
  (configuration_error (processEvent event m) = true <-> event ∉ _events m) /\
  (event ∈ _events m ->
   returns (processEvent event m) = true \/
   processEvent event m = Raise TypeError m \/
   processEvent event m = Raise IndexError m).
Proof.
  split; [split|].
  - intros Herr. destruct (processEvent_dispatched event m) as [|x He Hget| |]; try done.
    destruct (getTransition_raises _ _ _ _ _ Hget) as [_ [-> | ->]]; done.
  - intros He. by rewrite processEvent_absent.
  - intros He. destruct (processEvent_dispatched event m) as [Hno|x _ Hget| |];
      [done| |by left..].
    right. destruct (getTransition_raises _ _ _ _ _ Hget) as [_ [-> | ->]]; auto.
Qed.

Lemma processEvent_error_iff_unregistered_witness :
  ("fan3_on"%string ∉ _events (fan_model false)) /\
  configuration_error (processEvent "fan3_on" (fan_model false)) = true /\
  ("no_event"%string ∈ _events (__init__ 2 quiet false)) /\
  (returns (processEvent "no_event" (__init__ 2 quiet false)) = true \/
   processEvent "no_event" (__init__ 2 quiet false)
   = Raise TypeError (__init__ 2 quiet false) \/
   processEvent "no_event" (__init__ 2 quiet false)
   = Raise IndexError (__init__ 2 quiet false)).
Proof.
  assert (Hnew : "fan3_on"%string ∉ _events (fan_model false)) by compute_done.
  assert (Hold : "no_event"%string ∈ _events (__init__ 2 quiet false)) by compute_done.
  refine (conj Hnew (conj _ (conj Hold _))).
  - exact (proj2 (proj1 (processEvent_error_iff_unregistered "fan3_on" (fan_model false)))
             Hnew).
  - exact (proj2 (processEvent_error_iff_unregistered "no_event" (__init__ 2 quiet false))
             Hold).
Defined.

(** X3: [processEvent] never takes the engine to a state outside the range:
    afterwards the current state is either what it was or a state in
    [0, numStates). *)
Theorem processEvent_keeps_state_in_range event m :
  _curState (final (processEvent event m)) = _curState m \/
  0 <= _curState (final (processEvent event m)) < _numstates (final (processEvent event m)).
Proof.
  destruct (processEvent_dispatched event m) as [| |t He Hget Ht|m' He Hcur Hsetup]; simpl;
    auto.
  right. by destruct (_debug m).
Qed.

(** X4: whatever the table holds, one [processEvent] makes no handler call,
    or the single call [stateEvent] with the current state, or the pair
    [stateLeft] with the old state and [stateEntered] with the new one;
    never anything else. *)
Theorem processEvent_handler_calls event m :
  handler_calls (trace (final (processEvent event m))) = handler_calls (trace m) \/
  handler_calls (trace (final (processEvent event m)))
  = handler_calls (trace m) ++ [(stateEvent (_curState m) event, _curState m)] \/
  handler_calls (trace (final (processEvent event m)))
  = handler_calls (trace m)
      ++ [(stateLeft (_curState m) event, _curState m);
          (stateEntered (_curState (final (processEvent event m))) event,
           _curState (final (processEvent event m)))].
Proof.
  destruct (processEvent_dispatched event m) as [| |t He Hget Ht|m' He Hcur Hsetup [H|H]];
    simpl; auto.
  right; right. unfold moved; simpl.
  destruct (_debug m) eqn:Hd; simpl; rewrite ?Hd, !handler_calls_app; simpl;
    by rewrite ?app_nil_r.
Qed.

(** ** Adding and looking up *)

Lemma getTransition_loop_app a b event :
  getTransition_loop (a ++ b) event
  = if bool_decide (event ∈ a.*1) then getTransition_loop a event
    else getTransition_loop b event.
Proof.
  induction a as [|[e s] a IH]; simpl; [done|].
  destruct (decide (e = event)) as [->|Hne].
  - rewrite !bool_decide_eq_true_2; [done | apply list_elem_of_here | done].
  - rewrite (bool_decide_eq_false_2 (e = event)) by done. rewrite IH.
    destruct (decide (event ∈ a.*1)) as [Hin|Hin].
    + rewrite !bool_decide_eq_true_2; [done | by apply list_elem_of_further | done].
    + rewrite !bool_decide_eq_false_2; [done | | done].
      rewrite not_elem_of_cons. split; [congruence | done].
Qed.

Lemma getTransition_loop_same_target events toState event :
  getTransition_loop ((fun e => (e, toState)) <$> events) event
  = if bool_decide (event ∈ events) then toState else -1.
Proof.
  induction events as [|e events IH]; [done|].
  rewrite fmap_cons. cbn [getTransition_loop].
  destruct (decide (e = event)) as [->|Hne].
  - rewrite !bool_decide_eq_true_2; [done | apply list_elem_of_here | done].
  - rewrite (bool_decide_eq_false_2 (e = event)) by done. rewrite IH.
    destruct (decide (event ∈ events)) as [Hin|Hin].
    + rewrite !bool_decide_eq_true_2; [done | by apply list_elem_of_further | done].
    + rewrite !bool_decide_eq_false_2; [done | | done].
      rewrite not_elem_of_cons. split; [congruence | done].
Qed.

(** X6: after [addTransition] of registered events to one destination, the
    lookup in that state finds the new destination for each added event,
    unless the row already had an entry for the event: then the earlier
    entry still wins.  Events neither added nor present give -1. *)
Theorem addTransition_then_lookup fromState toState events m :
  events ≠ [] ->
  Forall (fun e => e ∈ _events m) events ->
  is_Some (py_index (_transitions m) fromState) ->
  exists m',
    addTransition fromState events toState m = Return tt m' /\
    forall event,
      getTransition fromState event m'
      = Return (if bool_decide (event ∈ (row_cells m fromState).*1)
                then getTransition_loop (row_cells m fromState) event
                else if bool_decide (event ∈ events) then toState else -1) m'.
Proof.
  intros Hne Hev [k Hk].
  destruct (addTransition_registered fromState toState events m k Hev Hk)
    as (m' & E & _ & Hk' & Hrow).
  exists m'. split; [done|]. intros event.
  assert (Hsome : row_of m' fromState = Some (row_cells m' fromState)).
  { unfold row_cells in *. destruct (row_of m' fromState) as [c|]; [done|].
    simpl in Hrow. destruct events; [done|]. by destruct (default [] (row_of m fromState)). }
  rewrite (getTransition_row _ _ _ _ Hsome), Hrow.
  by rewrite getTransition_loop_app, getTransition_loop_same_target.
Qed.

Lemma addTransition_then_lookup_witness :
  ["fan1_on"%string; "temp_drop"%string] ≠ [] /\
  Forall (fun e => e ∈ _events (fan_model false)) ["fan1_on"%string; "temp_drop"%string] /\
  is_Some (py_index (_transitions (fan_model false)) 0) /\
  exists m',
    addTransition 0 ["fan1_on"%string; "temp_drop"%string] 3 (fan_model false)
    = Return tt m' /\
    getTransition 0 "fan1_on" m' = Return 1 m' /\
    getTransition 0 "temp_drop" m' = Return 3 m' /\
    getTransition 0 "no_event" m' = Return (-1) m'.
Proof.
  assert (Hne : ["fan1_on"%string; "temp_drop"%string] ≠ []) by discriminate.
  assert (Hev : Forall (fun e => e ∈ _events (fan_model false))
                       ["fan1_on"%string; "temp_drop"%string])
    by (constructor; [compute_done|]; constructor; [compute_done|]; constructor).
  assert (Hidx : is_Some (py_index (_transitions (fan_model false)) 0))
    by (vm_compute; eauto).
  refine (conj Hne (conj Hev (conj Hidx _))).
  destruct (addTransition_then_lookup 0 3 ["fan1_on"%string; "temp_drop"%string]
              (fan_model false) Hne Hev Hidx) as (m' & E & Hlookup).
  exists m'. split; [exact E|].
  split; [|split]; rewrite Hlookup; vm_compute; reflexivity.
Defined.

(** X7: a source state outside [-len, len) of the table makes
    [addTransition] raise [IndexError] at its first (registered) event and
    leave the engine as it was. *)
Theorem addTransition_index_error fromState event events toState m :
  event ∈ _events m ->
  fromState < - Z.of_nat (length (_transitions m))
  \/ Z.of_nat (length (_transitions m)) <= fromState ->
  addTransition fromState (event :: events) toState m = Raise IndexError m.
Proof.
  intros He Hout. simpl. unfold bind at 1, addTransition_body.
  unfold bind at 1, self. rewrite bool_decide_eq_true_2 by done.
  unfold bind at 1, transitions_getitem. run.
  unfold py_index. by rewrite !bool_decide_eq_false_2 by lia.
Qed.

Lemma addTransition_index_error_witness :
  ("no_event"%string ∈ _events (__init__ 4 quiet false)) /\
  (4 < - Z.of_nat (length (_transitions (__init__ 4 quiet false)))
   \/ Z.of_nat (length (_transitions (__init__ 4 quiet false))) <= 4) /\
  addTransition 4 ["no_event"%string] 0 (__init__ 4 quiet false)
  = Raise IndexError (__init__ 4 quiet false).
Proof.
  assert (He : "no_event"%string ∈ _events (__init__ 4 quiet false)) by compute_done.
  assert (Hout : 4 < - Z.of_nat (length (_transitions (__init__ 4 quiet false)))
                 \/ Z.of_nat (length (_transitions (__init__ 4 quiet false))) <= 4)
    by (right; vm_compute; discriminate).
  refine (conj He (conj Hout _)).
  exact (addTransition_index_error 4 "no_event" [] 0 (__init__ 4 quiet false) He Hout).
Defined.



Section Elsewhere.
Variables (fromState toState other : Z) (k j : nat) (lj : loc) (c : row).

Lemma addTransition_body_apart event m :
  j ≠ k ->
  event ∈ _events m ->
  rows_apart fromState other k j lj c m ->
  exists m',
    addTransition_body fromState event toState m = Return tt m' /\
    _events m' = _events m /\
    rows_apart fromState other k j lj c m'.
Proof.
  intros Hjk He (Hk & Ho & Hj & Hc & Hne).
  pose proof (py_index_lt _ _ _ Hk) as Hlt.
  pose proof (lookup_lt_Some _ _ _ Hc) as Hlj.
  destruct (lookup_lt_is_Some_2 _ _ Hlt) as [r Hr].
  unfold addTransition_body.
  unfold bind at 1, self. rewrite bool_decide_eq_true_2 by done.
  step (transitions_getitem_at _ _ _ _ Hk Hr).
  assert (Hfresh :
    py_not r m = Return true m ->
    exists m',
      (empty <- py_not r;;
       when empty (l <- new_list [];; transitions_setitem fromState (Some l));;
       r0 <- transitions_getitem fromState;;
       match r0 with
       | Some l => list_append l (event, toState)
       | None => raise AttributeError
       end) m = Return tt m' /\ _events m' = _events m /\ rows_apart fromState other k j lj c m').
  { intros Hnot. step Hnot. unfold when. unfold bind at 2. unfold new_list at 1. run.
    rewrite (transitions_setitem_at _ k) by done. simpl.
    rewrite (transitions_getitem_at _ k (Some (length (heap m))));
      [|by simpl; rewrite py_index_insert|by apply list_lookup_insert_eq].
    unfold list_append. run.
    eexists. split; [done|]. split; [done|]. unfold rows_apart; simpl.
    rewrite !py_index_insert.
    split; [done|]. split; [done|].
    split; [by rewrite list_lookup_insert_ne|].
    split.
    - rewrite list_lookup_insert_ne by lia. by rewrite lookup_app_l.
    - rewrite list_lookup_insert_eq by done. intros [= Heq]. lia. }
  destruct r as [l|].
  - destruct (heap m !! l) as [[|x r]|] eqn:Hl.
    + apply Hfresh. unfold py_not, deref, cells. run. unfold row in *. by rewrite Hl.
    + assert (Hnot : py_not (Some l) m = Return false m)
        by (unfold py_not, deref, cells; run; unfold row in *; by rewrite Hl).
      step Hnot. unfold when. unfold bind at 1, ret.
      step (transitions_getitem_at _ _ _ _ Hk Hr).
      unfold list_append, cells. run. unfold row in *. rewrite Hl. simpl.
      eexists. split; [done|]. split; [done|]. unfold rows_apart; simpl.
      split; [done|]. split; [done|]. split; [done|]. split; [|done].
      rewrite list_lookup_insert_ne; [done|]. intros ->. congruence.
    + apply Hfresh. unfold py_not, deref, cells. run. unfold row in *. by rewrite Hl.
  - by apply Hfresh.
Qed.

Lemma addTransition_apart events m :
  j ≠ k ->
  Forall (fun e => e ∈ _events m) events ->
  rows_apart fromState other k j lj c m ->
  exists m', addTransition fromState events toState m = Return tt m' /\ rows_apart fromState other k j lj c m'.
Proof.
  intros Hjk. revert m. induction events as [|e events IH]; intros m Hev Hm; simpl.
  - by exists m.
  - inversion Hev as [|? ? He Hrest]; subst.
    destruct (addTransition_body_apart e m Hjk He Hm) as (m1 & E1 & Hev1 & Hm1).
    destruct (IH m1) as (m' & E' & Hm'); [by rewrite Hev1|done|].
    exists m'. by step E1.
Qed.

End Elsewhere.

(** X8: [addTransition] to one state does not change the row, and so the
    lookups, of another state whose row is a different list object. *)
Theorem addTransition_leaves_other_rows fromState toState events other m k j lj :
  Forall (fun e => e ∈ _events m) events ->
  py_index (_transitions m) fromState = Some k ->
  py_index (_transitions m) other = Some j ->
  j ≠ k ->
  _transitions m !! j = Some (Some lj) ->
  is_Some (heap m !! lj) ->
  _transitions m !! k ≠ Some (Some lj) ->
  exists m',
    addTransition fromState events toState m = Return tt m' /\
    row_of m' other = row_of m other /\
    forall event, getTransition other event m' = Return (getTransition_loop (cells (heap m) lj) event) m'.
Proof.
  intros Hev Hk Hj Hjk Hlj [c Hc] Hne.
  destruct (addTransition_apart fromState toState other k j lj c events m Hjk Hev)
    as (m' & E & Hk' & Ho' & Hj' & Hc' & _); [done|].
  exists m'. split; [done|].
  assert (Hrow : row_of m' other = row_of m other).
  { rewrite (row_of_at _ _ _ _ Ho' Hj'), (row_of_at _ _ _ _ Hj Hlj).
    unfold cells, row in *. by rewrite Hc, Hc'. }
  split; [done|]. intros event. apply getTransition_row.
  by rewrite Hrow, (row_of_at _ _ _ _ Hj Hlj).
Qed.

Lemma addTransition_leaves_other_rows_witness :
  Forall (fun e => e ∈ _events (fan_model false)) ["temp_drop"%string] /\
  py_index (_transitions (fan_model false)) 0 = Some 0%nat /\
  py_index (_transitions (fan_model false)) 1 = Some 1%nat /\
  1%nat ≠ 0%nat /\
  _transitions (fan_model false) !! 1%nat = Some (Some 1%nat) /\
  is_Some (heap (fan_model false) !! 1%nat) /\
  _transitions (fan_model false) !! 0%nat ≠ Some (Some 1%nat) /\
  exists m',
    addTransition 0 ["temp_drop"%string] 3 (fan_model false) = Return tt m' /\
    row_of m' 1 = row_of (fan_model false) 1 /\
    forall event,
      getTransition 1 event m'
      = Return (getTransition_loop (cells (heap (fan_model false)) 1%nat) event) m'.
Proof.
  assert (Hev : Forall (fun e => e ∈ _events (fan_model false)) ["temp_drop"%string])
    by (constructor; [compute_done|]; constructor).
  assert (Hk : py_index (_transitions (fan_model false)) 0 = Some 0%nat)
    by (vm_compute; reflexivity).
  assert (Hj : py_index (_transitions (fan_model false)) 1 = Some 1%nat)
    by (vm_compute; reflexivity).
  assert (Hjk : 1%nat ≠ 0%nat) by discriminate.
  assert (Hlj : _transitions (fan_model false) !! 1%nat = Some (Some 1%nat))
    by (vm_compute; reflexivity).
  assert (Hc : is_Some (heap (fan_model false) !! 1%nat)) by (vm_compute; eauto).
  assert (Hne : _transitions (fan_model false) !! 0%nat ≠ Some (Some 1%nat))
    by (vm_compute; discriminate).
  refine (conj Hev (conj Hk (conj Hj (conj Hjk (conj Hlj (conj Hc (conj Hne _))))))).
  exact (addTransition_leaves_other_rows 0 3 ["temp_drop"%string] 1 (fan_model false)
           0%nat 1%nat 1%nat Hev Hk Hj Hjk Hlj Hc Hne).
Defined.

(** ** Adapters and the registry *)

Lemma frames_addTransition_body {B} (f : StateModel -> B) fromState event toState :
  (forall v m, f (set_transitions v m) = f m) ->
  (forall v m, f (set_heap v m) = f m) ->
  frames f (addTransition_body fromState event toState).
Proof.
  intros Ht Hh.
  unfold addTransition_body, transitions_getitem, transitions_setitem, py_not, deref,
    new_list, list_append.
  repeat first
    [ apply frames_ret | apply frames_raise | apply frames_self
    | apply frames_bind | apply frames_when
    | apply frames_assign; intros ?; first [apply Ht | apply Hh]
    | match goal with |- forall _, _ => intro end
    | progress cbv beta
    | match goal with
      | |- frames _ (match ?x with _ => _ end) => destruct x
      end ].
Qed.

Lemma frames_addTransition {B} (f : StateModel -> B) fromState events toState :
  (forall v m, f (set_transitions v m) = f m) ->
  (forall v m, f (set_heap v m) = f m) ->
  frames f (addTransition fromState events toState).
Proof.
  intros Ht Hh. induction events; simpl; [apply frames_ret|].
  apply frames_bind; [by apply frames_addTransition_body | done].
Qed.

Lemma frames_check_row {B} (f : StateModel -> B) r : frames f (check_row r).
Proof. induction r as [|[e s] r IH]; simpl; frames. apply IH. Qed.

Lemma frames_check_rows {B} (f : StateModel -> B) transitions :
  frames f (check_rows transitions).
Proof.
  induction transitions; simpl; unfold deref; frames; auto using frames_check_row.
Qed.

Lemma frames_detach_buttons {B} (f : StateModel -> B) bs :
  (forall t m, f (set_trace t m) = f m) -> frames f (detach_buttons bs).
Proof.
  intros Ht. induction bs; simpl; [apply frames_ret|].
  apply frames_bind; [by apply frames_emit | done].
Qed.

Lemma frames_detach_timers {B} (f : StateModel -> B) ts :
  (forall t m, f (set_trace t m) = f m) -> frames f (detach_timers ts).
Proof.
  intros Ht. induction ts; simpl; [apply frames_ret|].
  repeat (apply frames_bind; [by apply frames_emit | intros _]). done.
Qed.

Lemma frames_adapters_perform c : registers c = false -> frames adapters (perform c).
Proof.
  destruct c; intros [=]; unfold perform, buttonPressed, buttonReleased, timeout.
  - unfold new_list. frames.
  - by apply frames_addTransition.
  - unfold setTransitionTable. frames. apply frames_check_rows.
  - frames.
  - unfold start. frames.
  - unfold stop. frames; by (apply frames_detach_buttons || apply frames_detach_timers).
  - unfold gotoState. frames.
  - unfold processEvent, gotoState. frames.
  - unfold processEvent, gotoState. frames.
  - unfold processEvent, gotoState. frames.
  - unfold processEvent, gotoState. frames.
Qed.

Lemma addButton_fresh btn m :
  button_name btn +:+ "_press" ∉ _events m ->
  button_name btn +:+ "_release" ∉ _events m ->
  addButton btn m
  = Return tt
      (set_buttons (_buttons m ++ [btn])
         (set_trace (trace m ++ [(button_setHandler (button_name btn) true, _curState m)])
            (set_events (_events m ++ [button_name btn +:+ "_press";
                                       button_name btn +:+ "_release"]) m))).
Proof.
  intros H1 H2. unfold addButton. run.
  rewrite !bool_decide_eq_false_2 by done. simpl.
  unfold append_event. run. unfold set_buttons, set_trace, set_events; simpl.
  by rewrite <- app_assoc.
Qed.

Lemma addTimer_fresh timer m :
  timer_name timer +:+ "_timeout" ∉ _events m ->
  addTimer timer m
  = Return tt
      (set_timers (_timers m ++ [timer])
         (set_trace (trace m ++ [(timer_setHandler (timer_name timer) true, _curState m)])
            (set_events (_events m ++ [timer_name timer +:+ "_timeout"]) m))).
Proof.
  intros H. unfold addTimer. run. rewrite bool_decide_eq_false_2 by done.
  unfold append_event. by run.
Qed.

(** What a call adds to the registry. *)
Lemma perform_registry c m :
  exists new,
    _events (final (perform c m)) = _events m ++ new /\
    (new = [] -> adapters (final (perform c m)) = adapters m) /\
    (new ≠ [] ->
     (forall e, e ∈ new -> e ∉ _events m) /\
     ((exists btn, c = call_addButton btn /\
                   new = [button_name btn +:+ "_press"; button_name btn +:+ "_release"] /\
                   _buttons (final (perform c m)) = _buttons m ++ [btn] /\
                   _timers (final (perform c m)) = _timers m) \/
      (exists timer, c = call_addTimer timer /\
                     new = [timer_name timer +:+ "_timeout"] /\
                     _buttons (final (perform c m)) = _buttons m /\
                     _timers (final (perform c m)) = _timers m ++ [timer]) \/
      (exists event, c = call_addCustomEvent event /\
                     new = [event] /\
                     _buttons (final (perform c m)) = _buttons m /\
                     _timers (final (perform c m)) = _timers m))).
Proof.
  destruct (registers c) eqn:Hc.
  2:{ exists []. pose proof (frames_adapters_perform c Hc m) as H.
      split; [|split; [done|done]]. rewrite app_nil_r.
      unfold adapters in H. by injection H. }
  destruct c; try discriminate Hc; unfold perform.
  - destruct (decide (button_name btn +:+ "_press" ∈ _events m)) as [H1|H1].
    { exists []. rewrite addButton_taken by by left. by rewrite app_nil_r. }
    destruct (decide (button_name btn +:+ "_release" ∈ _events m)) as [H2|H2].
    { exists []. rewrite addButton_taken by by right. by rewrite app_nil_r. }
    eexists. rewrite addButton_fresh by done. simpl. split; [done|].
    split; [done|]. intros _. split.
    + intros e. rewrite !elem_of_cons, elem_of_nil. by intros [->|[->|[]]].
    + left. by exists btn.
  - destruct (decide (timer_name timer +:+ "_timeout" ∈ _events m)) as [H|H].
    { exists []. rewrite addTimer_taken by done. by rewrite app_nil_r. }
    eexists. rewrite addTimer_fresh by done. simpl. split; [done|].
    split; [done|]. intros _. split.
    + intros e. rewrite list_elem_of_singleton. by intros ->.
    + right; left. by exists timer.
  - destruct (decide (event ∈ _events m)) as [H|H].
    { exists []. rewrite addCustomEvent_taken by done. by rewrite app_nil_r. }
    eexists. rewrite addCustomEvent_free by done. simpl. split; [done|].
    split; [done|]. intros _. split.
    + intros e. rewrite list_elem_of_singleton. by intros ->.
    + right; right. by exists event.
Qed.

(** X13: no call ever removes or reorders a name of the registry: after any
    call the old registry is a prefix of the new one. *)
Theorem registry_only_grows c m :
  _events m `prefix_of` _events (final (perform c m)).
Proof.
  destruct (perform_registry c m) as (new & H & _). by exists new.
Qed.

Lemma reachable_adapters_registered m : reachable m -> adapters_registered m.
Proof.
  induction 1 as [numstates handler debug|c m Hm [IHb IHt]].
  - split; simpl; intros x Hx; by apply elem_of_nil in Hx.
  - destruct (perform_registry c m) as (new & Hev & Hsame & Hnew).
    destruct (decide (new = [])) as [->|Hne].
    + specialize (Hsame eq_refl). unfold adapters in Hsame.
      injection Hsame as He Hb Ht. unfold adapters_registered. by rewrite He, Hb, Ht.
    + destruct (Hnew Hne) as [_ [(btn & _ & -> & Hb & Ht)|[(timer & _ & -> & Hb & Ht)
                                  |(event & _ & -> & Hb & Ht)]]];
        unfold adapters_registered; rewrite Hev, Hb, Ht; split.
      * intros b. rewrite elem_of_app, list_elem_of_singleton.
        intros [Hin| ->]; rewrite !elem_of_app, !elem_of_cons.
        -- destruct (IHb b Hin). auto.
        -- auto.
      * intros t Hin. rewrite elem_of_app. auto.
      * intros b Hin. rewrite !elem_of_app. destruct (IHb b Hin). auto.
      * intros t. rewrite elem_of_app, list_elem_of_singleton.
        intros [Hin| ->]; rewrite elem_of_app, list_elem_of_singleton; auto.
      * intros b Hin. rewrite !elem_of_app. destruct (IHb b Hin). auto.
      * intros t Hin. rewrite elem_of_app. auto.
Qed.

Lemma processEvent_registered_no_config_error event m :
  event ∈ _events m -> configuration_error (processEvent event m) = false.
Proof.
  intros He. destruct (processEvent_dispatched event m) as [|x _ Hget| |]; try done.
  destruct (getTransition_raises _ _ _ _ _ Hget) as [_ [-> | ->]]; done.
Qed.

(** X15: in an engine a program can reach, the events of every attached
    button and timer are registered: [buttonPressed], [buttonReleased] and
    [timeout] for them never end in a configuration error. *)
Theorem attached_adapters_dispatch m :
  reachable m ->
  (forall b, b ∈ _buttons m ->
             configuration_error (buttonPressed (button_name b) m) = false /\
             configuration_error (buttonReleased (button_name b) m) = false) /\
  (forall t, t ∈ _timers m ->
             configuration_error (timeout (timer_name t) m) = false).
Proof.
  intros Hm. destruct (reachable_adapters_registered m Hm) as [Hb Ht]. split.
  - intros b Hin. destruct (Hb b Hin).
    split; by apply processEvent_registered_no_config_error.
  - intros t Hin. by apply processEvent_registered_no_config_error, Ht.
Qed.

Lemma attached_adapters_dispatch_witness :
  reachable (final (perform (call_addButton {| button_name := "ok" |})
                      (__init__ 2 quiet false))) /\
  ({| button_name := "ok" |}
     ∈ _buttons (final (perform (call_addButton {| button_name := "ok" |})
                          (__init__ 2 quiet false)))) /\
  configuration_error
    (buttonPressed "ok" (final (perform (call_addButton {| button_name := "ok" |})
                                  (__init__ 2 quiet false)))) = false /\
  configuration_error
    (buttonReleased "ok" (final (perform (call_addButton {| button_name := "ok" |})
                                   (__init__ 2 quiet false)))) = false.
Proof.
  assert (Hm : reachable (final (perform (call_addButton {| button_name := "ok" |})
                                   (__init__ 2 quiet false))))
    by (apply reachable_call, reachable_init).
  assert (Hb : {| button_name := "ok" |}
                 ∈ _buttons (final (perform (call_addButton {| button_name := "ok" |})
                                      (__init__ 2 quiet false))))
    by (vm_compute; apply list_elem_of_here).
  destruct (attached_adapters_dispatch _ Hm) as [Hbuttons _].
  exact (conj Hm (conj Hb (Hbuttons _ Hb))).
Defined.

Lemma reachable_adapter_names m :
  reachable m ->
  NoDup (button_name <$> _buttons m) /\ NoDup (timer_name <$> _timers m).
Proof.
  induction 1 as [numstates handler debug|c m Hm [IHb IHt]]; [split; constructor|].
  destruct (reachable_adapters_registered m Hm) as [Rb Rt].
  destruct (perform_registry c m) as (new & Hev & Hsame & Hnew).
  destruct (decide (new = [])) as [->|Hne].
  - specialize (Hsame eq_refl). unfold adapters in Hsame.
    injection Hsame as He Hb Ht. by rewrite Hb, Ht.
  - destruct (Hnew Hne) as [Hfresh [(btn & _ & -> & Hb & Ht)|[(timer & _ & -> & Hb & Ht)
                                  |(event & _ & -> & Hb & Ht)]]];
      rewrite Hb, Ht; split; try done.
    + rewrite fmap_app. apply NoDup_app. split; [done|]. split; [|apply NoDup_singleton].
      intros n Hn. simpl. rewrite list_elem_of_singleton. intros ->.
      apply list_elem_of_fmap in Hn as (b & Heq & Hin).
      apply (Hfresh (button_name btn +:+ "_press")); [apply list_elem_of_here|].
      rewrite Heq. by apply Rb.
    + rewrite fmap_app. apply NoDup_app. split; [done|]. split; [|apply NoDup_singleton].
      intros n Hn. simpl. rewrite list_elem_of_singleton. intros ->.
      apply list_elem_of_fmap in Hn as (t & Heq & Hin).
      apply (Hfresh (timer_name timer +:+ "_timeout")); [apply list_elem_of_here|].
      rewrite Heq. by apply Rt.
Qed.

(** X16: in an engine a program can reach, no two attached buttons have the
    same name, and no two attached timers. *)
Theorem adapter_names_unique m :
  reachable m ->
  NoDup (button_name <$> _buttons m) /\ NoDup (timer_name <$> _timers m).
Proof.
  apply reachable_adapter_names.
Qed.

Lemma adapter_names_unique_witness :
  reachable (final (perform (call_addButton {| button_name := "ok" |})
                      (__init__ 2 quiet false))) /\
  NoDup (button_name <$> _buttons (final (perform (call_addButton {| button_name := "ok" |})
                                            (__init__ 2 quiet false)))) /\
  NoDup (timer_name <$> _timers (final (perform (call_addButton {| button_name := "ok" |})
                                          (__init__ 2 quiet false)))).
Proof.
  assert (Hm : reachable (final (perform (call_addButton {| button_name := "ok" |})
                                   (__init__ 2 quiet false))))
    by (apply reachable_call, reachable_init).
  exact (conj Hm (adapter_names_unique _ Hm)).
Defined.

Lemma reachable_no_event m : reachable m -> "no_event"%string ∈ _events m.
Proof.
  induction 1 as [numstates handler debug|c m Hm IH]; [apply list_elem_of_here|].
  destruct (perform_registry c m) as (new & -> & _). rewrite elem_of_app. auto.
Qed.

(** X5: in an engine a program can reach, [no_event] without a transition in
    the current row does nothing at all, with or without the debug flag: the
    engine comes back unchanged and the handler is not called. *)
Theorem processEvent_no_event_is_silent m newstate :
  reachable m ->
  getTransition (_curState m) "no_event" m = Return newstate m ->
  newstate < 0 ->
  processEvent "no_event" m = Return tt m.
Proof.
  intros Hm Hget Hneg. unfold processEvent.
  unfold bind at 1, self. rewrite bool_decide_eq_true_2 by by apply reachable_no_event.
  unfold bind at 1. rewrite Hget. rewrite bool_decide_eq_false_2 by lia.
  unfold when. destruct (_debug m); [|done]. by rewrite bool_decide_eq_false_2 by auto.
Qed.

Lemma processEvent_no_event_is_silent_witness :
  reachable
    (final (perform call_start
       (final (perform (call_addTransition 0 ["go"%string] 1)
          (final (perform (call_addCustomEvent "go") (__init__ 2 quiet true))))))) /\
  processEvent "no_event"
    (final (perform call_start
       (final (perform (call_addTransition 0 ["go"%string] 1)
          (final (perform (call_addCustomEvent "go") (__init__ 2 quiet true)))))))
  = Return tt
      (final (perform call_start
         (final (perform (call_addTransition 0 ["go"%string] 1)
            (final (perform (call_addCustomEvent "go") (__init__ 2 quiet true))))))).
Proof.
  assert (Hm : reachable
    (final (perform call_start
       (final (perform (call_addTransition 0 ["go"%string] 1)
          (final (perform (call_addCustomEvent "go") (__init__ 2 quiet true))))))))
    by (do 3 apply reachable_call; apply reachable_init).
  refine (conj Hm _).
  apply (processEvent_no_event_is_silent _ (-1) Hm); [vm_compute; reflexivity | lia].
Defined.

(** X14: registering the same button, timer or custom event a second time
    always ends in a configuration error, whether the first call succeeded
    or not. *)
Theorem registering_twice_fails m :
  (forall btn, configuration_error (addButton btn (final (addButton btn m))) = true) /\
  (forall timer, configuration_error (addTimer timer (final (addTimer timer m))) = true) /\
  (forall event,
      configuration_error (addCustomEvent event (final (addCustomEvent event m))) = true).
Proof.
  split; [|split].
  - intros btn.
    destruct (decide (button_name btn +:+ "_press" ∈ _events m)) as [H1|H1].
    { rewrite (addButton_taken btn m) by by left. simpl.
      by rewrite addButton_taken by by left. }
    destruct (decide (button_name btn +:+ "_release" ∈ _events m)) as [H2|H2].
    { rewrite (addButton_taken btn m) by by right. simpl.
      by rewrite addButton_taken by by right. }
    rewrite (addButton_fresh btn m) by done. simpl.
    rewrite addButton_taken; [done|]. left. simpl.
    rewrite elem_of_app, elem_of_cons. auto.
  - intros timer.
    destruct (decide (timer_name timer +:+ "_timeout" ∈ _events m)) as [H|H].
    { rewrite (addTimer_taken timer m) by done. simpl. by rewrite addTimer_taken. }
    rewrite (addTimer_fresh timer m) by done. simpl.
    rewrite addTimer_taken; [done|]. simpl. rewrite elem_of_app, list_elem_of_singleton. auto.
  - intros event.
    destruct (decide (event ∈ _events m)) as [H|H].
    { rewrite (addCustomEvent_taken event m) by done. simpl.
      by rewrite addCustomEvent_taken. }
    rewrite (addCustomEvent_free event m) by done. simpl.
    rewrite addCustomEvent_taken; [done|]. simpl.
    rewrite elem_of_app, list_elem_of_singleton. auto.
Qed.

(** X17: [stop] followed by [start] always returns, with the engine running
    in state 0 and its registry, table, state count and adapter lists
    untouched; the handler sees [stateLeft] of the state it was in, if the
    engine was running, and then [stateEntered 0]. *)
Theorem stop_then_start m :
  exists m',
    bind stop (fun _ => start) m = Return tt m' /\
    _curState m' = 0 /\
    _running m' = true /\
    (_events m', _transitions m', heap m', _numstates m', _buttons m', _timers m')
    = (_events m, _transitions m, heap m, _numstates m, _buttons m, _timers m) /\
    handler_calls (trace m')
    = handler_calls (trace m)
        ++ (if _running m then [(stateLeft (_curState m) "no_event", _curState m)] else [])
        ++ [(stateEntered 0 "no_event", 0)].
Proof.
  unfold bind at 1. rewrite stop_stopped. unfold start. run.
  eexists. split; [done|]. split; [done|]. split; [done|]. split; [done|].
  simpl. rewrite !handler_calls_app, handler_calls_detached. simpl.
  destruct (_running m); simpl; by rewrite ?app_nil_r, <- ?app_assoc.
Qed.

(** ** The controller *)

Lemma controller_eta c : {| _model := _model c; commands := commands c |} = c.
Proof. by destruct c. Qed.

Lemma engine_unchanged {A} (x : M A) a c :
  x (_model c) = Return a (_model c) -> engine x c = Done a c.
Proof.
  intros E. unfold engine. rewrite E. simpl.
  by rewrite drop_all, app_nil_r, controller_eta.
Qed.

Lemma callbacks_app t1 t2 : callbacks (t1 ++ t2) = callbacks t1 ++ callbacks t2.
Proof. unfold callbacks. apply bind_app. Qed.

Lemma fan_table_setup m m' : setup m' = setup m -> fan_table m -> fan_table m'.
Proof.
  unfold setup. intros [= Hn _ Ht _ _ He _ Hti Hh].
  unfold fan_table, row_of. by rewrite Hn, Ht, He, Hti, Hh.
Qed.

Lemma callbacks_log l z t : callbacks ((Log_d l, z) :: t) = callbacks t.
Proof. done. Qed.

Lemma callbacks_left_entered state event z state' z' :
  callbacks [(stateLeft state event, z); (stateEntered state' event, z')]
  = stateLeft_commands state event ++ stateEntered_commands state' event.
Proof. unfold callbacks. simpl. by rewrite app_nil_r. Qed.

(** A transition taken by [processEvent], seen from the controller. *)
Lemma engine_processEvent_taken c event newstate :
  event ∈ _events (_model c) ->
  getTransition (_curState (_model c)) event (_model c) = Return newstate (_model c) ->
  0 <= newstate < _numstates (_model c) ->
  exists m',
    engine (processEvent event) c
    = Done tt {| _model := m';
                 commands := commands c
                             ++ stateLeft_commands (_curState (_model c)) event
                             ++ stateEntered_commands newstate event |} /\
    _curState m' = newstate /\
    setup m' = setup (_model c).
Proof.
  intros He Hget [Hpos Hlt]. unfold engine.
  rewrite (processEvent_found _ _ _ He Hget Hpos).
  unfold bind, when.
  destruct (_debug (_model c)) eqn:Hd; unfold emit, ret;
    rewrite gotoState_below by done; cbn [final].
  - match goal with |- context [Done tt {| _model := ?x; commands := _ |}] => exists x end.
    split; [|done]. do 3 f_equal. unfold moved.
    cbn [trace set_trace set_curState _curState _debug]. rewrite Hd.
    rewrite <- app_assoc, drop_app_length. cbn [app]. rewrite !callbacks_log.
    apply callbacks_left_entered.
  - match goal with |- context [Done tt {| _model := ?x; commands := _ |}] => exists x end.
    split; [|done]. do 3 f_equal. unfold moved.
    cbn [trace set_trace set_curState _curState _debug]. rewrite Hd.
    rewrite drop_app_length. cbn [app].
    apply callbacks_left_entered.
Qed.

Lemma latest_app {X} (pick : command -> option X) a b :
  latest pick (a ++ b)
  = match latest pick b with Some x => Some x | None => latest pick a end.
Proof.
  unfold latest. rewrite fold_left_app. generalize (fold_left
    (fun acc c => match pick c with Some x => Some x | None => acc end) a None).
  induction b as [|c b IH]; intros o; simpl; [done|].
  rewrite IH. destruct (pick c) as [x|]; simpl.
  - rewrite (IH (Some x)). by destruct (fold_left _ b None).
  - by rewrite (IH None).
Qed.

(** The state of the controller after a transition of the fan table. *)
Lemma fan_transition c event newstate :
  on_table c ->
  (_curState (_model c), event, newstate)
    ∈ [(0, "fan1_on"%string, 1); (1, "both_fans_on"%string, 2);
       (2, "critical_temp"%string, 3); (3, "temp_drop"%string, 2);
       (2, "temp_drop"%string, 1); (1, "temp_drop"%string, 0)] ->
  exists c',
    engine (processEvent event) c = Done tt c' /\
    on_table c' /\
    _curState (_model c') = newstate /\
    setup (_model c') = setup (_model c) /\
    (devices_match (_curState (_model c)) (commands c) ->
     devices_match newstate (commands c')).
Proof.
  intros (Htable & Hcur) Hin.
  pose proof Htable as (Hn & Hev & Hti & H0 & H1 & H2 & H3).
  assert (exists m',
    engine (processEvent event) c
    = Done tt {| _model := m';
                 commands := commands c
                             ++ stateLeft_commands (_curState (_model c)) event
                             ++ stateEntered_commands newstate event |} /\
    _curState m' = newstate /\ setup m' = setup (_model c)) as (m' & E & Hnew & Hsetup).
  { rewrite !elem_of_cons, elem_of_nil in Hin.
    destruct Hin as [[= Hs -> ->]|[[= Hs -> ->]|[[= Hs -> ->]|[[= Hs -> ->]
                    |[[= Hs -> ->]|[[= Hs -> ->]|[]]]]]]];
      apply engine_processEvent_taken; rewrite ?Hn, ?Hs; try lia;
      try (apply Hev; rewrite !elem_of_cons; by auto 10);
      first [ by rewrite (getTransition_row _ _ _ _ H0)
            | by rewrite (getTransition_row _ _ _ _ H1)
            | by rewrite (getTransition_row _ _ _ _ H2)
            | by rewrite (getTransition_row _ _ _ _ H3) ]. }
  eexists. split; [exact E|]. cbn [_model commands].
  split; [|split; [done|split; [done|]]].
  { split; [by apply (fan_table_setup (_model c))|]. cbn [_model]. rewrite Hnew.
    rewrite !elem_of_cons, elem_of_nil in Hin.
    destruct Hin as [[= _ _ ->]|[[= _ _ ->]|[[= _ _ ->]|[[= _ _ ->]
                    |[[= _ _ ->]|[[= _ _ ->]|[]]]]]]]; lia. }
  intros Hdev. rewrite !elem_of_cons, elem_of_nil in Hin.
  destruct Hin as [[= Hs -> ->]|[[= Hs -> ->]|[[= Hs -> ->]|[[= Hs -> ->]
                  |[[= Hs -> ->]|[[= Hs -> ->]|[]]]]]]];
    rewrite Hs in *; unfold devices_match in *; simpl in Hdev; simpl;
    unfold fan1, fan2, buzzer, led_strip in *; rewrite !latest_app;
    destruct Hdev as (? & ? & ?); intuition (simpl; auto; congruence).
Qed.

Ltac table_entry := rewrite !elem_of_cons; auto 10.

Lemma update_system_up_reaches fuel desired_state c :
  on_table c ->
  desired_state <= 3 ->
  desired_state - _curState (_model c) <= Z.of_nat fuel ->
  exists c',
    update_system_up fuel desired_state c = Done tt c' /\
    on_table c' /\
    _curState (_model c') = Z.max (_curState (_model c)) desired_state /\
    setup (_model c') = setup (_model c) /\
    (devices_match (_curState (_model c)) (commands c) ->
     devices_match (_curState (_model c')) (commands c')).
Proof.
  revert c. induction fuel as [|fuel IH]; intros c Hc Hd Hfuel.
  - exists c. simpl. rewrite bool_decide_eq_false_2 by lia.
    split; [done|]. split; [done|]. split; [lia|done].
  - cbn [update_system_up]. case_bool_decide as Hlt;
      [|exists c; split; [done|]; split; [done|]; split; [lia|done]].
    pose proof Hc as (_ & Hcur).
    assert (exists event,
      (_curState (_model c), event, _curState (_model c) + 1)
        ∈ [(0, "fan1_on"%string, 1); (1, "both_fans_on"%string, 2);
           (2, "critical_temp"%string, 3); (3, "temp_drop"%string, 2);
           (2, "temp_drop"%string, 1); (1, "temp_drop"%string, 0)] /\
      (if bool_decide (_curState (_model c) = 0) then engine (processEvent "fan1_on")
       else if bool_decide (_curState (_model c) = 1)
            then engine (processEvent "both_fans_on")
            else if bool_decide (_curState (_model c) = 2)
                 then engine (processEvent "critical_temp")
                 else app_ret tt) = engine (processEvent event)) as (event & Hin & Heq).
    { assert (_curState (_model c) = 0 \/ _curState (_model c) = 1
              \/ _curState (_model c) = 2) as [Hs | [Hs | Hs] ] by lia; rewrite Hs.
      - exists "fan1_on"%string. split; [table_entry | done].
      - exists "both_fans_on"%string. split; [table_entry | done].
      - exists "critical_temp"%string. split; [table_entry | done]. }
    rewrite Heq.
    destruct (fan_transition c event _ Hc Hin) as (c1 & E1 & Hc1 & Hcur1 & Hs1 & Hdev1).
    unfold app_bind. rewrite E1.
    destruct (IH c1 Hc1 Hd) as (c' & E' & Hc' & Hcur' & Hs' & Hdev'); [lia|].
    exists c'. split; [done|]. split; [done|]. split; [lia|]. split; [congruence|].
    intros Hdev. apply Hdev'. rewrite Hcur1. by apply Hdev1.
Qed.

Lemma update_system_down_reaches fuel desired_state c :
  on_table c ->
  0 <= desired_state ->
  _curState (_model c) - desired_state <= Z.of_nat fuel ->
  exists c',
    update_system_down fuel desired_state c = Done tt c' /\
    on_table c' /\
    _curState (_model c') = Z.min (_curState (_model c)) desired_state /\
    setup (_model c') = setup (_model c) /\
    (devices_match (_curState (_model c)) (commands c) ->
     devices_match (_curState (_model c')) (commands c')).
Proof.
  revert c. induction fuel as [|fuel IH]; intros c Hc Hd Hfuel.
  - exists c. simpl. rewrite bool_decide_eq_false_2 by lia.
    split; [done|]. split; [done|]. split; [lia|done].
  - cbn [update_system_down]. case_bool_decide as Hlt;
      [|exists c; split; [done|]; split; [done|]; split; [lia|done]].
    pose proof Hc as (_ & Hcur).
    assert ((_curState (_model c), "temp_drop"%string, _curState (_model c) - 1)
        ∈ [(0, "fan1_on"%string, 1); (1, "both_fans_on"%string, 2);
           (2, "critical_temp"%string, 3); (3, "temp_drop"%string, 2);
           (2, "temp_drop"%string, 1); (1, "temp_drop"%string, 0)]) as Hin.
    { assert (_curState (_model c) = 1 \/ _curState (_model c) = 2
              \/ _curState (_model c) = 3) as [Hs | [Hs | Hs] ] by lia; rewrite Hs; table_entry. }
    destruct (fan_transition c _ _ Hc Hin) as (c1 & E1 & Hc1 & Hcur1 & Hs1 & Hdev1).
    unfold app_bind. rewrite E1.
    destruct (IH c1 Hc1 Hd) as (c' & E' & Hc' & Hcur' & Hs' & Hdev'); [lia|].
    exists c'. split; [done|]. split; [done|]. split; [lia|]. split; [congruence|].
    intros Hdev. apply Hdev'. rewrite Hcur1. by apply Hdev1.
Qed.

Lemma latest_aside {X} (pick : command -> option X) cs :
  (forall c, match c with
             | lcd_clear | lcd_showText _ _ _
             | Log_i_note _ | Log_d_note _ | Log_e_note _ => pick c = None
             | _ => True
             end) ->
  aside cs -> latest pick cs = None.
Proof.
  intros Hpick Hcs. unfold latest.
  induction Hcs as [|c cs Hc _ IH]; simpl; [done|].
  specialize (Hpick c). destruct c; try done; by rewrite Hpick.
Qed.

Lemma devices_match_aside state cs0 cs :
  aside cs -> devices_match state cs0 -> devices_match state (cs0 ++ cs).
Proof.
  intros Hcs. unfold devices_match, fan1, fan2, buzzer, led_strip.
  by rewrite !latest_app, !(latest_aside _ cs) by (done || by intros []).
Qed.

Lemma desired_state_for_range temperature : 0 <= desired_state_for temperature <= 3.
Proof. unfold desired_state_for. repeat case_bool_decide; lia. Qed.

(** What [update_system] tells the logger and the display before its
    loops. *)
Lemma update_system_loops fuel r c :
  exists cs,
    aside cs /\
    update_system fuel r c
    = app_bind (update_system_up fuel (desired_state_for (temperature_of r)))
        (fun _ => update_system_down fuel (desired_state_for (temperature_of r)))
        {| _model := _model c; commands := commands c ++ cs |}.
Proof.
  exists [match r with
          | Some (temp, hum) => Log_i_note (TemperatureHumidity temp hum)
          | None => Log_e_note ErrorReadingSensor
          end;
          Log_i_note (CurrentTemperature (temperature_of r));
          lcd_clear;
          lcd_showText (Temp (temperature_of r)) 0 0].
  split; [repeat constructor; by destruct r as [[? ?]|]|].
  unfold update_system, read_temperature, sensor_read_temperature, app_bind, tell, app_ret.
  destruct r as [[temp hum]|]; cbn [_model commands temperature_of];
    by rewrite <- !app_assoc.
Qed.

Lemma update_system_settles fuel r c :
  on_table c ->
  (3 <= fuel)%nat ->
  exists c',
    update_system fuel r c = Done tt c' /\
    on_table c' /\
    _curState (_model c') = desired_state_for (temperature_of r) /\
    setup (_model c') = setup (_model c) /\
    (devices_match (_curState (_model c)) (commands c) ->
     devices_match (_curState (_model c')) (commands c')).
Proof.
  intros Hc Hfuel.
  pose proof (desired_state_for_range (temperature_of r)) as Hrange.
  pose proof Hc as (_ & Hcur).
  destruct (update_system_loops fuel r c) as (cs & Hcs & ->).
  set (c0 := {| _model := _model c; commands := commands c ++ cs |}).
  assert (Hc0 : on_table c0) by done.
  unfold app_bind.
  destruct (update_system_up_reaches fuel (desired_state_for (temperature_of r)) c0 Hc0)
    as (c1 & E1 & Hc1 & Hcur1 & Hs1 & Hdev1); [lia|simpl; lia|].
  rewrite E1.
  destruct (update_system_down_reaches fuel (desired_state_for (temperature_of r)) c1 Hc1)
    as (c2 & E2 & Hc2 & Hcur2 & Hs2 & Hdev2); [lia|simpl in *; lia|].
  exists c2. split; [done|]. split; [done|]. split; [simpl in *; lia|].
  split; [by rewrite Hs2, Hs1|].
  intros Hdev. apply Hdev2, Hdev1. by apply devices_match_aside.
Qed.

Lemma stateDo_settles fuel i c :
  on_table c ->
  (3 <= fuel)%nat ->
  exists c',
    stateDo fuel i (_curState (_model c)) c = Done tt c' /\
    on_table c' /\
    _curState (_model c') = desired_state_for (temperature_of (dht11 i)) /\
    setup (_model c') = setup (_model c) /\
    (devices_match (_curState (_model c)) (commands c) ->
     devices_match (_curState (_model c')) (commands c')).
Proof.
  intros Hc Hfuel. unfold stateDo, app_bind.
  case_bool_decide as H3; [|by apply update_system_settles].
  assert (exists cs, warning_beep (ticks_ms i) c
                     = Done tt {| _model := _model c; commands := commands c ++ cs |} /\
                     (cs = [buzzer_play 1000] \/ cs = [buzzer_stop])) as (cs & -> & Hcs).
  { unfold warning_beep. case_bool_decide; eexists; split; eauto. }
  destruct (update_system_settles fuel (dht11 i)
              {| _model := _model c; commands := commands c ++ cs |} Hc Hfuel)
    as (c' & E & Hc' & Hcur' & Hs' & Hdev').
  exists c'. split; [done|]. split; [done|]. split; [done|]. split; [done|].
  intros Hdev. apply Hdev'. cbn [_model commands]. rewrite H3 in *.
  unfold devices_match, fan1, fan2, buzzer, led_strip in *. simpl in *.
  rewrite !latest_app. by destruct Hcs as [-> | ->].
Qed.

Lemma processEvent_no_event_miss m r :
  "no_event"%string ∈ _events m ->
  row_of m (_curState m) = Some r ->
  getTransition_loop r "no_event" < 0 ->
  processEvent "no_event" m = Return tt m.
Proof.
  intros He Hr Hneg. unfold processEvent.
  unfold bind at 1, self. rewrite bool_decide_eq_true_2 by done.
  unfold bind at 1. rewrite (getTransition_row _ _ _ _ Hr).
  rewrite bool_decide_eq_false_2 by lia.
  unfold when. destruct (_debug m); [|done]. by rewrite bool_decide_eq_false_2 by auto.
Qed.

Lemma fan_no_event c :
  on_table c -> engine (processEvent "no_event") c = Done tt c.
Proof.
  intros ((Hn & Hev & Hti & H0 & H1 & H2 & H3) & Hcur).
  apply engine_unchanged.
  assert (_curState (_model c) = 0 \/ _curState (_model c) = 1
          \/ _curState (_model c) = 2 \/ _curState (_model c) = 3)
    as [Hs | [Hs | [Hs | Hs] ] ] by lia;
    eapply processEvent_no_event_miss; rewrite ?Hs; eauto;
    try (apply Hev; apply list_elem_of_here); by vm_compute.
Qed.

Section RunFan.
Variable check : Timer -> App unit.

Lemma run_loop_fan fuel inputs c :
  in_step c ->
  _running (_model c) = true ->
  (3 <= fuel)%nat ->
  exists c',
    run_loop check fuel inputs c = Unfinished c' /\
    in_step c' /\
    _running (_model c') = true /\
    _curState (_model c')
    = match last inputs with
      | Some i => desired_state_for (temperature_of (dht11 i))
      | None => _curState (_model c)
      end.
Proof.
  intros Hc Hrun Hfuel. revert c Hc Hrun.
  induction inputs as [|i inputs IH]; intros c Hc Hrun; cbn [run_loop]; rewrite Hrun.
  - by exists c.
  - destruct Hc as (Ht & Hcur & Hdev).
    destruct (stateDo_settles fuel i c (conj Ht Hcur) Hfuel)
      as (c1 & E1 & Hc1 & Hcur1 & Hs1 & Hdev1).
    unfold app_bind at 1. rewrite E1.
    assert (Hti : _timers (_model c1) = []) by apply Hc1.
    unfold app_bind at 1. rewrite Hti. cbn [check_timers app_ret].
    unfold app_bind at 1. rewrite (fan_no_event c1 Hc1).
    assert (Hrun1 : _running (_model c1) = true).
    { unfold setup in Hs1. injection Hs1 as _ Hr _. congruence. }
    assert (Hstep1 : in_step c1).
    { destruct Hc1 as (Ht1 & Hr1). split; [done|]. split; [done|]. by apply Hdev1. }
    destruct (IH c1 Hstep1 Hrun1) as (c' & E' & Hc' & Hrun' & Hcur').
    exists c'. split; [done|]. split; [done|]. split; [done|].
    rewrite Hcur'. destruct inputs as [|i' inputs]; [done|].
    rewrite last_cons_cons. destruct (last (i' :: inputs)) eqn:Hl; [done|].
    by apply last_None in Hl.
Qed.

End RunFan.

(** The controller as constructed, and once its engine is started. *)
Lemma started_in_step :
  exists c,
    engine start (ended TemperatureFanControl) = Done tt c /\
    in_step c /\ _running (_model c) = true /\ _curState (_model c) = 0.
Proof.
  eexists. split; [vm_compute; reflexivity|]. split; [|split; vm_compute; reflexivity].
  split; [|split; [vm_compute; split; discriminate|repeat split; vm_compute; reflexivity]].
  split; [vm_compute; reflexivity|]. split.
  { intros e He. cbn [_model _events]. exact He. }
  repeat split; vm_compute; reflexivity.
Qed.

Lemma started_controller_in_step : in_step started_controller.
Proof.
  destruct started_in_step as (c & E & Hc & _). unfold started_controller. by rewrite E.
Qed.






(** The loops of [update_system] only add to the commands given. *)
Lemma engine_commands {A} (x : M A) c :
  commands c `prefix_of` commands (ended (engine x c)).
Proof. unfold engine. destruct (x (_model c)); simpl; by apply prefix_app_r. Qed.

Lemma app_bind_commands {A B} (x : App A) (k : A -> App B) c :
  commands c `prefix_of` commands (ended (x c)) ->
  (forall a c1, commands c1 `prefix_of` commands (ended (k a c1))) ->
  commands c `prefix_of` commands (ended (app_bind x k c)).
Proof.
  intros Hx Hk. unfold app_bind. destruct (x c) as [a c1|e c1|c1]; simpl in *; [|done..].
  by etrans.
Qed.

Lemma update_system_up_commands fuel desired_state c :
  commands c `prefix_of` commands (ended (update_system_up fuel desired_state c)).
Proof.
  revert c. induction fuel as [|fuel IH]; intros c; cbn [update_system_up];
    case_bool_decide; try done.
  apply app_bind_commands; [|intros _ c1; apply IH].
  repeat case_bool_decide; first [apply engine_commands | done].
Qed.

Lemma update_system_down_commands fuel desired_state c :
  commands c `prefix_of` commands (ended (update_system_down fuel desired_state c)).
Proof.
  revert c. induction fuel as [|fuel IH]; intros c; cbn [update_system_down];
    case_bool_decide; try done.
  apply app_bind_commands; [apply engine_commands|intros _ c1; apply IH].
Qed.

(** [update_system] up to its loops: the sensor's log line, the
    temperature in the log and on the display. *)
Lemma update_system_unfold fuel r c :
  update_system fuel r c
  = app_bind (update_system_up fuel (desired_state_for (temperature_of r)))
      (fun _ => update_system_down fuel (desired_state_for (temperature_of r)))
      {| _model := _model c;
         commands := commands c
                     ++ [match r with
                         | Some (temp, hum) => Log_i_note (TemperatureHumidity temp hum)
                         | None => Log_e_note ErrorReadingSensor
                         end;
                         Log_i_note (CurrentTemperature (temperature_of r));
                         lcd_clear;
                         lcd_showText (Temp (temperature_of r)) 0 0] |}.
Proof.
  unfold update_system, read_temperature, sensor_read_temperature, app_bind, tell, app_ret.
  destruct r as [[temp hum]|]; cbn [_model commands temperature_of];
    by rewrite <- !app_assoc.
Qed.

(** X20: a failed sensor read is logged as an error and counts as 25
    degrees: [update_system] logs the error, logs and displays 25 as the
    temperature, and then takes the controller down to state 0, from
    whichever state, with both fans stopped and the buzzer silent. *)
Theorem sensor_failure_goes_idle fuel c :
  in_step c ->
  (3 <= fuel)%nat ->
  exists c',
    update_system fuel None c = Done tt c' /\
    (commands c ++ [Log_e_note ErrorReadingSensor;
                    Log_i_note (CurrentTemperature 25);
                    lcd_clear;
                    lcd_showText (Temp 25) 0 0]) `prefix_of` commands c' /\
    _curState (_model c') = 0 /\
    fan1 (commands c') = Some at_rest /\
    fan2 (commands c') = Some at_rest /\
    buzzer (commands c') = Some tone_off.
Proof.
  intros (Ht & Hcur & Hdev) Hfuel.
  destruct (update_system_settles fuel None c (conj Ht Hcur) Hfuel)
    as (c' & E & _ & Hcur' & _ & Hdev').
  exists c'. split; [done|]. split.
  { rewrite update_system_unfold in E.
    match type of E with
    | app_bind ?x ?k ?c0 = _ =>
        assert (Hgrow : commands c0 `prefix_of` commands (ended (app_bind x k c0)))
    end.
    { apply app_bind_commands; [apply update_system_up_commands|].
      intros _ c1. apply update_system_down_commands. }
    by rewrite E in Hgrow. }
  change (desired_state_for (temperature_of None)) with 0 in Hcur'.
  split; [done|]. apply Hdev' in Hdev. rewrite Hcur' in Hdev.
  unfold devices_match in Hdev. simpl in Hdev. tauto.
Qed.

Lemma sensor_failure_goes_idle_witness :
  in_step started_controller /\
  (3 <= 3)%nat /\
  exists c',
    update_system 3 None started_controller = Done tt c' /\
    (commands started_controller
       ++ [Log_e_note ErrorReadingSensor;
           Log_i_note (CurrentTemperature 25);
           lcd_clear;
           lcd_showText (Temp 25) 0 0]) `prefix_of` commands c' /\
    _curState (_model c') = 0 /\
    fan1 (commands c') = Some at_rest /\
    fan2 (commands c') = Some at_rest /\
    buzzer (commands c') = Some tone_off.
Proof.
  assert (Hfuel : (3 <= 3)%nat) by lia.
  refine (conj started_controller_in_step (conj Hfuel _)).
  exact (sensor_failure_goes_idle 3 started_controller started_controller_in_step Hfuel).
Defined.

Lemma update_system_up_spins fuel desired_state c :
  _curState (_model c) < 0 ->
  0 <= desired_state ->
  update_system_up fuel desired_state c = Unfinished c.
Proof.
  intros Hneg Hd. induction fuel as [|fuel IH]; cbn [update_system_up];
    rewrite bool_decide_eq_true_2 by lia; [done|].
  rewrite !bool_decide_eq_false_2 by lia. unfold app_bind, app_ret. apply IH.
Qed.

(** X21: while the engine's current state is negative, as it is before
    [start] and after [stop], [update_system] does not come back: having
    logged and displayed the temperature, its first loop goes round without
    sending an event or changing anything, so however many rounds it is
    given, it is cut off with the engine exactly as it was and no command
    given beyond the log lines and the display. *)
Theorem update_system_below_zero_never_ends fuel r c :
  _curState (_model c) < 0 ->
  update_system fuel r c
  = Unfinished
      {| _model := _model c;
         commands := commands c
                     ++ [match r with
                         | Some (temp, hum) => Log_i_note (TemperatureHumidity temp hum)
                         | None => Log_e_note ErrorReadingSensor
                         end;
                         Log_i_note (CurrentTemperature (temperature_of r));
                         lcd_clear;
                         lcd_showText (Temp (temperature_of r)) 0 0] |}.
Proof.
  intros Hneg. pose proof (desired_state_for_range (temperature_of r)) as Hrange.
  rewrite update_system_unfold. unfold app_bind.
  by rewrite update_system_up_spins by (cbn [_model]; lia).
Qed.

Lemma update_system_below_zero_never_ends_witness :
  _curState (_model (ended TemperatureFanControl)) < 0 /\
  update_system 1000 (Some (20, 40)) (ended TemperatureFanControl)
  = Unfinished
      {| _model := _model (ended TemperatureFanControl);
         commands := commands (ended TemperatureFanControl)
                     ++ [Log_i_note (TemperatureHumidity 20 40);
                         Log_i_note (CurrentTemperature 20);
                         lcd_clear;
                         lcd_showText (Temp 20) 0 0] |}.
Proof.
  assert (Hneg : _curState (_model (ended TemperatureFanControl)) < 0)
    by (vm_compute; reflexivity).
  exact (conj Hneg (update_system_below_zero_never_ends 1000 (Some (20, 40))
                      (ended TemperatureFanControl) Hneg)).
Defined.

(** X22: the controller's [run], from construction on, never returns by
    itself: after any number of rounds the engine is still running, in the
    state the thresholds ask for the last reading (state 0 before the first
    round), with the devices as that state asks. *)
Theorem run_follows_temperature check fuel inputs :
  (3 <= fuel)%nat ->
  exists c,
    run check fuel inputs (ended TemperatureFanControl) = Unfinished c /\
    _running (_model c) = true /\
    _curState (_model c)
    = match last inputs with
      | Some i => desired_state_for (temperature_of (dht11 i))
      | None => 0
      end /\
    devices_match (_curState (_model c)) (commands c).
Proof.
  intros Hfuel. destruct started_in_step as (c1 & E1 & Hc1 & Hrun1 & Hcur1).
  destruct (run_loop_fan check fuel inputs c1 Hc1 Hrun1 Hfuel)
    as (c & E & Hc & Hrun & Hcur).
  exists c. unfold run, app_bind. rewrite E1. split; [done|]. split; [done|].
  split; [by rewrite Hcur, Hcur1 | apply Hc].
Qed.

Lemma run_follows_temperature_witness :
  (3 <= 3)%nat /\
  exists c,
    run (fun _ => app_ret tt) 3
      [{| ticks_ms := 0; dht11 := Some (45, 40) |}; {| ticks_ms := 150; dht11 := None |}]
      (ended TemperatureFanControl) = Unfinished c /\
    _running (_model c) = true /\
    _curState (_model c)
    = match last [{| ticks_ms := 0; dht11 := Some (45, 40) |};
                  {| ticks_ms := 150; dht11 := None |}] with
      | Some i => desired_state_for (temperature_of (dht11 i))
      | None => 0
      end /\
    devices_match (_curState (_model c)) (commands c).
Proof.
  assert (Hfuel : (3 <= 3)%nat) by lia.
  exact (conj Hfuel (run_follows_temperature (fun _ => app_ret tt) 3 _ Hfuel)).
Defined.

(** X12: in an engine just constructed no lookup returns: for a state
    index within [-numStates, numStates) it raises [TypeError], the row being
    [None], and for any other index [IndexError]. *)
Theorem fresh_engine_lookup_raises numstates handler debug fromState event :
  getTransition fromState event (__init__ numstates handler debug)
  = Raise (if bool_decide (- numstates <= fromState < numstates) then TypeError
           else IndexError)
          (__init__ numstates handler debug).
Proof.
  unfold getTransition, transitions_getitem. run. unfold py_index.
  rewrite length_replicate.
  destruct (decide (0 <= numstates)) as [Hn|Hn].
  - rewrite Z2Nat.id by done. repeat case_bool_decide; try lia; simpl;
      rewrite ?lookup_replicate_2 by lia; done.
  - rewrite Z2Nat.nonpos by lia. simpl.
    rewrite !bool_decide_eq_false_2 by lia. done.
Qed.

(** X9: adding a list of events in one call is the same as adding a first
    part and then the rest in a second call, the second call being skipped
    when the first raises. *)
Theorem addTransition_in_two_calls fromState toState pre rest m :
  addTransition fromState (pre ++ rest) toState m
  = bind (addTransition fromState pre toState)
         (fun _ => addTransition fromState rest toState) m.
Proof.
  apply addTransition_app.
Qed.

(** X11: when the matrix has another number of rows than there are states
    and one of its event names is unknown, [setTransitionTable] raises a
    configuration error with the state count already set to the number of
    rows of the rejected matrix, while the table is still the old one. *)
Theorem setTransitionTable_failure_keeps_new_count transitions m :
  ~ all_known m transitions ->
  Z.of_nat (length transitions) ≠ _numstates m ->
  configuration_error (setTransitionTable transitions m) = true /\
  _numstates (final (setTransitionTable transitions m)) = Z.of_nat (length transitions) /\
  _transitions (final (setTransitionTable transitions m)) = _transitions m.
Proof.
  intros Hunknown Hlen. rewrite setTransitionTable_unfold.
  destruct (check_rows_spec transitions (resized (Z.of_nat (length transitions)) m))
    as [_ Hu].
  unfold bind. destruct Hu as (e & He & ->); [by rewrite all_known_resized|].
  simpl. split; [done|]. unfold resized. by rewrite bool_decide_eq_true_2.
Qed.

Lemma setTransitionTable_failure_keeps_new_count_witness :
  ~ all_known (final (new_list [("bogus"%string, 0)] (__init__ 2 quiet false))) [0%nat] /\
  Z.of_nat (length [0%nat])
  ≠ _numstates (final (new_list [("bogus"%string, 0)] (__init__ 2 quiet false))) /\
  configuration_error
    (setTransitionTable [0%nat]
       (final (new_list [("bogus"%string, 0)] (__init__ 2 quiet false)))) = true /\
  _numstates
    (final (setTransitionTable [0%nat]
              (final (new_list [("bogus"%string, 0)] (__init__ 2 quiet false)))))
  = Z.of_nat (length [0%nat]) /\
  _transitions
    (final (setTransitionTable [0%nat]
              (final (new_list [("bogus"%string, 0)] (__init__ 2 quiet false)))))
  = _transitions (final (new_list [("bogus"%string, 0)] (__init__ 2 quiet false))).
Proof.
  assert (Hunknown : ~ all_known (final (new_list [("bogus"%string, 0)]
                                           (__init__ 2 quiet false))) [0%nat]).
  { intros H. apply Forall_cons_1 in H as [H _]. apply Forall_cons_1 in H as [H _].
    revert H. compute_done. }
  assert (Hlen : Z.of_nat (length [0%nat])
                 ≠ _numstates (final (new_list [("bogus"%string, 0)]
                                        (__init__ 2 quiet false))))
    by (vm_compute; discriminate).
  refine (conj Hunknown (conj Hlen _)).
  exact (setTransitionTable_failure_keeps_new_count [0%nat] _ Hunknown Hlen).
Defined.

(** X23: [warning_beep] looks at the reading of the millisecond counter
    only through its remainder modulo 200: two readings that differ by a
    multiple of 200 give the same buzzer command, and two readings that
    differ by 100 more than a multiple of 200 give different ones.  This is
    about the readings, not about the time between two calls: where the
    counter starts again in between, the readings differ by something else. *)
Theorem warning_beep_pattern current_time k c :
  warning_beep (current_time + 200 * k) c = warning_beep current_time c /\
  warning_beep (current_time + 100 + 200 * k) c ≠ warning_beep current_time c.
Proof.
  unfold warning_beep.
  assert (Hsame : (current_time + 200 * k) `mod` 200 = current_time `mod` 200).
  { rewrite (Z.mul_comm 200 k). by apply Z.mod_add. }
  assert (Hflip : (current_time + 100 + 200 * k) `mod` 200 < 100
                  <-> ~ current_time `mod` 200 < 100).
  { rewrite (Z.mul_comm 200 k), Z.mod_add by done.
    pose proof (Z.mod_pos_bound current_time 200).
    pose proof (Z.mod_pos_bound (current_time + 100) 200).
    pose proof (Z.div_mod current_time 200).
    pose proof (Z.div_mod (current_time + 100) 200). lia. }
  split; [by rewrite Hsame|].
  repeat case_bool_decide; try tauto; unfold tell; intros [= Heq];
    apply app_inv_head in Heq; discriminate.
Qed.
